(** * The traces table (web/src/components/table/use-cases/traces.tsx)

    A shallow embedding of the pure parts of the [TracesTable] component:
    the effective filter, the row transformer, the selection handlers, the
    bulk-action control, the page count and the payload handed to the
    table renderer.

    Conventions of the embedding.
    - A TypeScript [T | null] is [nullable T]; an optional field or an
      expression that may be [undefined] is [optional T].
    - A JavaScript number the component computes with (page index, page
      size, page count) is an IEEE 754 binary64 value ([double]), with the
      operations of the standard library's [SpecFloat]: signed zeros,
      infinities, NaN and rounding to nearest, ties to even.  A number the
      component only hands on (latency, cost) is a [number]: an exact
      rational or one of the three special values.
    - A JavaScript object used as a map from ids to booleans is a
      [gmap string bool].
    - A member access on [null] or [undefined] throws a [TypeError]:
      fallible code returns a [completion]. *)

From Stdlib Require Import QArith.
From Stdlib Require SpecFloat.
From stdpp Require Import base option list strings gmap fin_maps.

Local Open Scope string_scope.

(** ** JavaScript values *)

Module Js.

Inductive nullable (A : Type) : Type :=
| null : nullable A
| val : A -> nullable A.
Arguments null {A}.
Arguments val {A} _.

Inductive optional (A : Type) : Type :=
| undefined : optional A
| defined : A -> optional A.
Arguments undefined {A}.
Arguments defined {A} _.

(** [x ?? d] on a nullable [x]; [inj] is the (implicit) widening of the
    left operand to the type of the whole expression. *)
Definition coalesce {A B : Type} (inj : A -> B) (x : nullable A) (d : B) : B :=
  match x with
  | null => d
  | val a => inj a
  end.

(** [x ?? d] on an optional [x]. *)
Definition coalesce_opt {A B : Type} (inj : A -> B) (x : optional A) (d : B) : B :=
  match x with
  | undefined => d
  | defined a => inj a
  end.

(** [x?.f]: optional chaining on a possibly undefined object. *)
Definition chain {A B : Type} (x : optional A) (f : A -> B) : optional B :=
  match x with
  | undefined => undefined
  | defined a => defined (f a)
  end.

Inductive number : Type :=
| Finite : Q -> number
| Infinity : number
| NegInfinity : number
| NaN : number.

(** An IEEE 754 binary64 value. *)
Definition double : Type := SpecFloat.spec_float.

Definition prec : Z := 53.
Definition emax : Z := 1024.

(** [Number(n)] for an integer (a bigint, or a number that holds an
    integer): the nearest binary64 value, ties to even. *)
Definition Number (n : Z) : double :=
  SpecFloat.binary_normalize prec emax n 0 false.

(** [a / b] *)
Definition div (a b : double) : double := SpecFloat.SFdiv prec emax a b.

(** [Math.ceil]: a value with a non-negative exponent is an integer
    already; otherwise the mantissa is divided by the power of two, rounding
    up, and a result of 0 keeps the sign of the argument. *)
Definition Math_ceil (x : double) : double :=
  match x with
  | SpecFloat.S754_finite s m e =>
      if (0 <=? e)%Z then x
      else
        let n :=
          if s then (- (Z.pos m / 2 ^ (- e)))%Z
          else (- (- Z.pos m / 2 ^ (- e)))%Z in
        if (n =? 0)%Z then SpecFloat.S754_zero s else Number n
  | _ => x
  end.

(** The rational a finite binary64 value stands for. *)
Definition to_Q (x : double) : option Q :=
  match x with
  | SpecFloat.S754_zero _ => Some 0%Q
  | SpecFloat.S754_finite s m e =>
      Some (inject_Z (if s then Z.neg m else Z.pos m) * Qpower 2 e)%Q
  | _ => None
  end.

(** Truthiness of an optional string: [undefined] and the empty string
    are falsy. *)
Definition truthy_string (s : optional string) : bool :=
  match s with
  | undefined => false
  | defined s => negb (String.eqb s EmptyString)
  end.

(** Completion of a computation that may throw. *)
Inductive completion (A : Type) : Type :=
| Normal : A -> completion A
| Throw : string -> completion A.
Arguments Normal {A} _.
Arguments Throw {A} _.

Definition bind {A B : Type} (c : completion A) (k : A -> completion B)
  : completion B :=
  match c with
  | Normal a => k a
  | Throw e => Throw e
  end.

Definition TypeError : string := "TypeError".

(** [x.f] where [x] may be [undefined]. *)
Definition member {A B : Type} (x : optional A) (f : A -> B) : completion B :=
  match x with
  | undefined => Throw TypeError
  | defined a => Normal (f a)
  end.

(** [x.f] where [x] may be [null]. *)
Definition member_n {A B : Type} (x : nullable A) (f : A -> B) : completion B :=
  match x with
  | null => Throw TypeError
  | val a => Normal (f a)
  end.

(** [Object.keys(o)] of an object used as a map. *)
Definition Object_keys {V : Type} (o : gmap string V) : list string :=
  (map_to_list o).*1.

(** [l.includes(x)]. *)
Definition includes (l : list string) (x : string) : bool :=
  bool_decide (x ∈ l).

End Js.

Import Js.


(** ** Data model *)

(** [ObservationLevel] of the shared package. *)
Inductive ObservationLevel : Type := DEBUG | DEFAULT | WARNING | ERROR.

(** One predicate of a [FilterState]; [value] is a date (epoch
    milliseconds), a string, a number, a list of strings or a boolean,
    according to [type]. *)
Module FilterCondition.
Inductive value_t : Type :=
| DateValue (d : Z)
| StringValue (s : string)
| NumberValue (n : number)
| StringsValue (l : list string)
| BooleanValue (b : bool).

Record t : Type := mk {
  column : string;
  type : string;
  operator : string;
  value : value_t
}.
End FilterCondition.

Abbreviation FilterState := (list FilterCondition.t).

Module OrderByState.
Record t : Type := mk { column : string; order : string }.
End OrderByState.

Module PaginationState.
Record t : Type := mk { pageIndex : double; pageSize : double }.
End PaginationState.

(** An element of [RouterOutput["traces"]["all"]["traces"]]. *)
Module Trace.
Record t (Score : Type) : Type := mk {
  bookmarked : bool;
  id : string;
  timestamp : Z;
  name : nullable string;
  level : ObservationLevel;
  observationCount : Z;
  release : nullable string;
  version : nullable string;
  userId : nullable string;
  scores : list Score;
  sessionId : nullable string;
  latency : nullable number;
  tags : list string;
  promptTokens : Z;
  completionTokens : Z;
  totalTokens : Z;
  calculatedInputCost : nullable Q;
  calculatedOutputCost : nullable Q;
  calculatedTotalCost : nullable Q
}.
Arguments mk {Score}.
Arguments bookmarked {Score}.
Arguments id {Score}.
Arguments timestamp {Score}.
Arguments name {Score}.
Arguments level {Score}.
Arguments observationCount {Score}.
Arguments release {Score}.
Arguments version {Score}.
Arguments userId {Score}.
Arguments scores {Score}.
Arguments sessionId {Score}.
Arguments latency {Score}.
Arguments tags {Score}.
Arguments promptTokens {Score}.
Arguments completionTokens {Score}.
Arguments totalTokens {Score}.
Arguments calculatedInputCost {Score}.
Arguments calculatedOutputCost {Score}.
Arguments calculatedTotalCost {Score}.
End Trace.

Module Usage.
Record t : Type := mk {
  promptTokens : Z;
  completionTokens : Z;
  totalTokens : Z
}.
End Usage.

(** [TracesTableRow]; [input], [output] and [metadata] are never set by the
    transformer and are left out. *)
Module TracesTableRow.
Record t (Score : Type) : Type := mk {
  bookmarked : bool;
  id : string;
  timestamp : string;
  name : string;
  userId : string;
  level : ObservationLevel;
  observationCount : Z;
  latency : optional number;
  release : optional string;
  version : optional string;
  sessionId : optional string;
  scores : list Score;
  tags : list string;
  usage : Usage.t;
  inputCost : optional Q;
  outputCost : optional Q;
  totalCost : optional Q
}.
Arguments mk {Score}.
Arguments bookmarked {Score}.
Arguments id {Score}.
Arguments timestamp {Score}.
Arguments name {Score}.
Arguments userId {Score}.
Arguments level {Score}.
Arguments observationCount {Score}.
Arguments latency {Score}.
Arguments release {Score}.
Arguments version {Score}.
Arguments sessionId {Score}.
Arguments scores {Score}.
Arguments tags {Score}.
Arguments usage {Score}.
Arguments inputCost {Score}.
Arguments outputCost {Score}.
Arguments totalCost {Score}.
End TracesTableRow.

Module TracesTableProps.
Record t : Type := mk {
  projectId : string;
  userId : optional string;
  omittedFilter : optional (list string)
}.
End TracesTableProps.

(** The input of [traces.all]. *)
Module TracesAllInput.
Record t : Type := mk {
  page : double;
  limit : double;
  projectId : string;
  filter : FilterState;
  searchQuery : nullable string;
  orderBy : nullable OrderByState.t
}.
End TracesAllInput.

(** The output of [traces.all]. *)
Module TracesAllOutput.
Record t (Score : Type) : Type := mk {
  traces : list (Trace.t Score);
  totalCount : Z
}.
Arguments mk {Score}.
Arguments traces {Score}.
Arguments totalCount {Score}.
End TracesAllOutput.

(** A column of the filter builder ([ColumnDefinition] of the shared
    package), with its option list when it has one. *)
Module ColumnDefinition.
Record t : Type := mk {
  name : string;
  id : string;
  type : string;
  internal : string;
  options : optional (list string)
}.
End ColumnDefinition.

(** [RowSelectionState]: an object from row ids to booleans. *)
Abbreviation RowSelectionState := (gmap string bool).

(** *** The fetch result

    The object returned by [useQuery], field by field. *)
Module QueryResult.
Record error_t : Type := mk_error { message : string }.

Record t (Data : Type) : Type := mk {
  isLoading : bool;
  isError : bool;
  isSuccess : bool;
  data : optional Data;
  error : nullable error_t
}.
Arguments mk {Data}.
Arguments isLoading {Data}.
Arguments isError {Data}.
Arguments isSuccess {Data}.
Arguments data {Data}.
Arguments error {Data}.

(** The four shapes the query library declares for that object: its
    result type is the union of a loading result, a loading-error result,
    a refetch-error result (the data of an earlier fetch is kept) and a
    success result. *)
Inductive status (Data : Type) : Type :=
| Loading : status Data
| LoadingError : error_t -> status Data
| RefetchError : error_t -> Data -> status Data
| Success : Data -> status Data.
Arguments Loading {Data}.
Arguments LoadingError {Data}.
Arguments RefetchError {Data}.
Arguments Success {Data}.

Definition of_status {Data : Type} (s : status Data) : t Data :=
  match s with
  | Loading => mk true false false undefined null
  | LoadingError e => mk false true false undefined (val e)
  | RefetchError e d => mk false true false (defined d) (val e)
  | Success d => mk false false true (defined d) null
  end.
End QueryResult.

(** The payload of the table renderer's [data] prop: a union tagged by
    [isLoading] and [isError]. *)
Module AsyncTableData.
Inductive t (Row : Type) : Type :=
| loading : t Row
| failed (error : string) : t Row
| loaded (data : list Row) : t Row.
Arguments loading {Row}.
Arguments failed {Row}.
Arguments loaded {Row}.

Definition isLoading {Row : Type} (p : t Row) : bool :=
  match p with loading => true | _ => false end.

Definition isError {Row : Type} (p : t Row) : bool :=
  match p with failed _ => true | _ => false end.

Definition error {Row : Type} (p : t Row) : optional string :=
  match p with failed e => defined e | _ => undefined end.

Definition data {Row : Type} (p : t Row) : optional (list Row) :=
  match p with loaded d => defined d | _ => undefined end.
End AsyncTableData.

(** *** React state

    A state setter takes a new value or an updater; the calls made during
    one event are queued and applied in order to the state. *)
Module React.
Inductive SetStateAction (S : Type) : Type :=
| SetValue : S -> SetStateAction S
| SetUpdater : (S -> S) -> SetStateAction S.
Arguments SetValue {S}.
Arguments SetUpdater {S}.

Definition apply {S : Type} (s : S) (a : SetStateAction S) : S :=
  match a with
  | SetValue v => v
  | SetUpdater f => f s
  end.

Definition flush {S : Type} (queue : list (SetStateAction S)) (s : S) : S :=
  fold_left apply queue s.
End React.

(** The value a checkbox reports: a boolean or ["indeterminate"]. *)
Inductive CheckedState : Type :=
| Checked (b : bool)
| Indeterminate.

(** Truthiness of a [CheckedState]: ["indeterminate"] is a non-empty
    string. *)
Definition truthy_checked (v : CheckedState) : bool :=
  match v with
  | Checked b => b
  | Indeterminate => true
  end.

(** Props of the bulk-action control. *)
Module MultiSelectAction.
Record t : Type := mk {
  selectedTraceIds : list string;
  projectId : string
}.
End MultiSelectAction.

(** What the component reads from its hooks during one render. *)
Module Hooks.
Record t (Score TraceOptions : Type) : Type := mk {
  selectedRows : RowSelectionState;
  searchQuery : nullable string;
  userFilterState : FilterState;
  orderByState : nullable OrderByState.t;
  paginationState : PaginationState.t;
  traces : QueryResult.t (TracesAllOutput.t Score);
  traceFilterOptions_data : optional TraceOptions
}.
Arguments mk {Score TraceOptions}.
Arguments selectedRows {Score TraceOptions}.
Arguments searchQuery {Score TraceOptions}.
Arguments userFilterState {Score TraceOptions}.
Arguments orderByState {Score TraceOptions}.
Arguments paginationState {Score TraceOptions}.
Arguments traces {Score TraceOptions}.
Arguments traceFilterOptions_data {Score TraceOptions}.
End Hooks.

(** What one render hands over: the input of the listing query, the props
    of the toolbar and the props of the table. *)
Module Rendered.
Record toolbar_t : Type := mk_toolbar {
  filterColumnDefinition : list ColumnDefinition.t;
  filterState : FilterState;
  actionButtons : nullable MultiSelectAction.t
}.

Record table_t (Score : Type) : Type := mk_table {
  data : AsyncTableData.t (TracesTableRow.t Score);
  pageCount : double;
  rowSelection : RowSelectionState
}.
Arguments mk_table {Score}.
Arguments data {Score}.
Arguments pageCount {Score}.
Arguments rowSelection {Score}.

Record t (Score : Type) : Type := mk {
  query : TracesAllInput.t;
  toolbar : toolbar_t;
  table : table_t Score
}.
Arguments mk {Score}.
Arguments query {Score}.
Arguments toolbar {Score}.
Arguments table {Score}.
End Rendered.

(** ** The component *)

Section TracesTable.

(** The score type of the public API, and the option lists returned by
    [traces.filterOptions]. *)
Context {Score TraceOptions : Type}.
(** [Date.prototype.toLocaleString], which depends on the locale. *)
Variable toLocaleString : Z -> string.
(** [formatIntervalSeconds] of [utils/dates]. *)
Variable formatIntervalSeconds : number -> string.
(** [tracesTableColsWithOptions] of the shared package. *)
Variable tracesTableColsWithOptions :
  optional TraceOptions -> list ColumnDefinition.t.
(** The calls of the selection setter that the table library makes for
    [table.toggleAllPageRowsSelected(value)]. *)
Variable toggleAllPageRowsSelected :
  bool -> list (React.SetStateAction RowSelectionState).

Definition userIdFilter (userId : optional string) : FilterState :=
  if truthy_string userId then
    match userId with
    | defined u =>
        [ FilterCondition.mk "User ID" "string" "="
            (FilterCondition.StringValue u) ]
    | undefined => []
    end
  else [].

Definition filterState (userFilterState : FilterState)
    (userId : optional string) : FilterState :=
  userFilterState ++ userIdFilter userId.

Definition tracesAllQueryFilter (props : TracesTableProps.t)
    (h : Hooks.t Score TraceOptions) : TracesAllInput.t :=
  {| TracesAllInput.page :=
       PaginationState.pageIndex (Hooks.paginationState h);
     TracesAllInput.limit :=
       PaginationState.pageSize (Hooks.paginationState h);
     TracesAllInput.projectId := TracesTableProps.projectId props;
     TracesAllInput.filter :=
       filterState (Hooks.userFilterState h) (TracesTableProps.userId props);
     TracesAllInput.searchQuery := Hooks.searchQuery h;
     TracesAllInput.orderBy := Hooks.orderByState h |}.

(** [traces.data?.totalCount ?? 0] *)
Definition totalCount (data : optional (TracesAllOutput.t Score)) : Z :=
  coalesce_opt (fun n => n) (chain data TracesAllOutput.totalCount) 0%Z.

(** The default of the [omittedFilter] prop. *)
Definition omittedFilter (props : TracesTableProps.t) : list string :=
  coalesce_opt (fun l => l) (TracesTableProps.omittedFilter props) [].

Definition transformFilterOptions (omitted : list string)
    (traceFilterOptions : optional TraceOptions) : list ColumnDefinition.t :=
  List.filter (fun c => negb (includes omitted (ColumnDefinition.name c)))
    (tracesTableColsWithOptions traceFilterOptions).

Definition convertToTableRow (trace : Trace.t Score) : TracesTableRow.t Score :=
  {| TracesTableRow.bookmarked := Trace.bookmarked trace;
     TracesTableRow.id := Trace.id trace;
     TracesTableRow.timestamp := toLocaleString (Trace.timestamp trace);
     TracesTableRow.name := coalesce (fun s => s) (Trace.name trace) EmptyString;
     TracesTableRow.level := Trace.level trace;
     TracesTableRow.observationCount := Trace.observationCount trace;
     TracesTableRow.release := coalesce defined (Trace.release trace) undefined;
     TracesTableRow.version := coalesce defined (Trace.version trace) undefined;
     TracesTableRow.userId := coalesce (fun s => s) (Trace.userId trace) EmptyString;
     TracesTableRow.scores := Trace.scores trace;
     TracesTableRow.sessionId :=
       coalesce defined (Trace.sessionId trace) undefined;
     TracesTableRow.latency :=
       match Trace.latency trace with
       | null => undefined
       | val l => defined l
       end;
     TracesTableRow.tags := Trace.tags trace;
     TracesTableRow.usage :=
       {| Usage.promptTokens := Trace.promptTokens trace;
          Usage.completionTokens := Trace.completionTokens trace;
          Usage.totalTokens := Trace.totalTokens trace |};
     TracesTableRow.inputCost :=
       coalesce defined (Trace.calculatedInputCost trace) undefined;
     TracesTableRow.outputCost :=
       coalesce defined (Trace.calculatedOutputCost trace) undefined;
     TracesTableRow.totalCost :=
       coalesce defined (Trace.calculatedTotalCost trace) undefined |}.

(** *** Column [select]: the header checkbox *)

Definition select_header_onCheckedChange (value : CheckedState)
  : list (React.SetStateAction RowSelectionState) :=
  toggleAllPageRowsSelected (truthy_checked value)
  ++ (if negb (truthy_checked value) then [React.SetValue ∅] else []).

(** *** Column [latency]: the cell; [undefined] renders nothing *)

Definition latency_cell (row : TracesTableRow.t Score) : optional string :=
  match TracesTableRow.latency row with
  | defined value => defined (formatIntervalSeconds value)
  | undefined => undefined
  end.

(** *** The toolbar's [actionButtons] *)

(** [traces.data?.traces.map((t) => t.id).includes(traceId)], as the
    condition of a [filter]: [undefined] is falsy. *)
Definition on_current_page (data : optional (TracesAllOutput.t Score))
    (traceId : string) : bool :=
  coalesce_opt (fun b => b)
    (chain data (fun d =>
       includes (map Trace.id (TracesAllOutput.traces d)) traceId))
    false.

Definition actionButtons (selectedRows : RowSelectionState)
    (data : optional (TracesAllOutput.t Score)) (projectId : string)
  : nullable MultiSelectAction.t :=
  if (0 <? length (List.filter (on_current_page data)
                     (Object_keys selectedRows)))%nat
  then val {| MultiSelectAction.selectedTraceIds :=
                List.filter (on_current_page data) (Object_keys selectedRows);
              MultiSelectAction.projectId := projectId |}
  else null.

(** *** The table's [data] and [pagination] props *)

Definition table_data (traces : QueryResult.t (TracesAllOutput.t Score))
  : completion (AsyncTableData.t (TracesTableRow.t Score)) :=
  if QueryResult.isLoading traces then Normal AsyncTableData.loading
  else if QueryResult.isError traces then
    Js.bind (member_n (QueryResult.error traces) QueryResult.message)
      (fun message => Normal (AsyncTableData.failed message))
  else
    Js.bind (member (QueryResult.data traces) TracesAllOutput.traces)
      (fun ts => Normal (AsyncTableData.loaded (map convertToTableRow ts))).

Definition pageCount (total : Z) (paginationState : PaginationState.t)
  : double :=
  Math_ceil (div (Number total) (PaginationState.pageSize paginationState)).

(** *** One render *)

Definition toolbar_props (props : TracesTableProps.t)
    (h : Hooks.t Score TraceOptions) : Rendered.toolbar_t :=
  {| Rendered.filterColumnDefinition :=
       transformFilterOptions (omittedFilter props)
         (Hooks.traceFilterOptions_data h);
     Rendered.filterState := Hooks.userFilterState h;
     Rendered.actionButtons :=
       actionButtons (Hooks.selectedRows h)
         (QueryResult.data (Hooks.traces h))
         (TracesTableProps.projectId props) |}.



End TracesTable.

(** ** The synthetic predicate, as the specification words it *)

Definition userIdPredicate (U : string) : FilterCondition.t :=
  {| FilterCondition.column := "User ID";
     FilterCondition.type := "string";
     FilterCondition.operator := "=";
     FilterCondition.value := FilterCondition.StringValue U |}.

(** ** Sample inputs *)

Module Sample.

(** Page-wide toggle of the table library on a page with the given row
    ids: every row of the page is selected, or removed from the
    selection. *)
Definition toggle_page (pageRowIds : list string) (value : bool)
  : list (React.SetStateAction RowSelectionState) :=
  [ React.SetUpdater (fun old =>
      fold_left (fun acc id =>
                   if value then <[id := true]> acc else delete id acc)
                pageRowIds old) ].

Definition toLocaleString (d : Z) : string := "1/1/1970, 12:00:00 AM".

Definition formatIntervalSeconds (n : number) : string :=
  match n with
  | Finite q => if Qeq_bool q 0 then "0.00s" else "?s"
  | _ => "NaNs"
  end.

Definition trace (id : string) (strings : nullable string)
    (latency : nullable number) : Trace.t unit :=
  {| Trace.bookmarked := false;
     Trace.id := id;
     Trace.timestamp := 0%Z;
     Trace.name := strings;
     Trace.level := DEFAULT;
     Trace.observationCount := 1%Z;
     Trace.release := strings;
     Trace.version := strings;
     Trace.userId := strings;
     Trace.scores := [];
     Trace.sessionId := strings;
     Trace.latency := latency;
     Trace.tags := [];
     Trace.promptTokens := 0%Z;
     Trace.completionTokens := 0%Z;
     Trace.totalTokens := 0%Z;
     Trace.calculatedInputCost := null;
     Trace.calculatedOutputCost := null;
     Trace.calculatedTotalCost := null |}.

Definition page (ids : list string) (total : Z) : TracesAllOutput.t unit :=
  {| TracesAllOutput.traces :=
       map (fun id => trace id null (val (Finite 0))) ids;
     TracesAllOutput.totalCount := total |}.

Definition selection (ids : list string) : RowSelectionState :=
  list_to_map (map (fun id => (id, true)) ids).

Definition columns (o : optional unit) : list ColumnDefinition.t :=
  [ ColumnDefinition.mk "Name" "name" "string" "t.name" undefined;
    ColumnDefinition.mk "Session ID" "sessionId" "string" "t.session_id"
      undefined;
    ColumnDefinition.mk "Tags" "tags" "arrayOptions" "t.tags"
      (defined []) ].

(** A user-scoped view whose user id is the empty string, with no
    user-editable filter, while the listing is loading. *)
Definition empty_user_props : TracesTableProps.t :=
  TracesTableProps.mk "project" (defined EmptyString) undefined.

Definition idle_hooks : Hooks.t unit unit :=
  Hooks.mk ∅ null [] null (PaginationState.mk (Number 0) (Number 50))
    (QueryResult.of_status QueryResult.Loading) undefined.

End Sample.

(** ** The rest of the component *)

(** [l.find(f)]: the first element that satisfies [f]. *)
Fixpoint Array_find {A : Type} (f : A -> bool) (l : list A) : optional A :=
  match l with
  | [] => undefined
  | x :: l' => if f x then defined x else Array_find f l'
  end.

(** The input of [traces.filterOptions]. *)
Module FilterOptionsInput.
Record t : Type := mk {
  projectId : string;
  timestampFilter : optional FilterCondition.t
}.
End FilterOptionsInput.

(** Props of a [TableLink]. *)
Module TableLink.
Record t : Type := mk {
  path : string;
  value : string;
  truncateAt : optional nat
}.
End TableLink.

(** A column definition of the table: what the component declares for a
    column besides its cell renderer. *)
Module LangfuseColumnDef.
Inductive header_t : Type :=
| NoHeader
| Label (text : string)
| Render.

Record tooltip_t : Type := mk_tooltip { description : string; href : string }.

Record t : Type := mk {
  id : optional string;
  accessorKey : string;
  header : header_t;
  headerTooltip : optional tooltip_t;
  customCell : bool;
  enableSorting : optional bool;
  enableHiding : optional bool;
  defaultHidden : optional bool;
  enableColumnFilter : optional bool
}.

(** The key under which the table library files a column: its [id], or
    its [accessorKey] when it has none. *)
Definition key (c : t) : string := coalesce_opt (fun s => s) (id c) (accessorKey c).
End LangfuseColumnDef.

Section TracesTableRest.

Context {Score TraceOptions : Type}.
(** [encodeURIComponent]; it throws a [URIError] on a string with an
    unpaired surrogate. *)
Variable encodeURIComponent : string -> completion string.
(** [usdFormatter] and [numberFormatter] of [utils/numbers]; the second
    argument of [numberFormatter] is the number of fraction digits. *)
Variable usdFormatter : number -> string.
Variable numberFormatter : Z -> nat -> string.

(** The initial value of the user-editable filter state, for the date
    [localtimeDateOffsetByDays(-useTableLookBackDays(projectId))]. *)
Definition defaultFilterState (lookBackDate : Z) : FilterState :=
  [ FilterCondition.mk "Timestamp" "datetime" ">"
      (FilterCondition.DateValue lookBackDate) ].

(** [filterState.find((f) => f.column === "Timestamp")] *)
Definition timestampFilter (filterState : FilterState)
  : optional FilterCondition.t :=
  Array_find (fun f => String.eqb (FilterCondition.column f) "Timestamp")
    filterState.

(** The input of the filter-options query:
    [timestampFilter?.type === "datetime" ? timestampFilter : undefined]. *)
Definition traceFilterOptions_input (props : TracesTableProps.t)
    (h : Hooks.t Score TraceOptions) : FilterOptionsInput.t :=
  let tf :=
    timestampFilter
      (filterState (Hooks.userFilterState h) (TracesTableProps.userId props)) in
  {| FilterOptionsInput.projectId := TracesTableProps.projectId props;
     FilterOptionsInput.timestampFilter :=
       if coalesce_opt (fun ty => String.eqb ty "datetime")
            (chain tf FilterCondition.type) false
       then tf else undefined |}.

(** The effect run when [traces.isSuccess] or [traces.data] changes: the
    call of [setDetailPageList] it makes, if any. *)
Definition detailPageList_effect
    (traces : QueryResult.t (TracesAllOutput.t Score))
  : completion (optional (string * list string)) :=
  if QueryResult.isSuccess traces then
    Js.bind (member (QueryResult.data traces) TracesAllOutput.traces)
      (fun ts => Normal (defined ("traces", map Trace.id ts)))
  else Normal undefined.

(** [onDeleteSuccess] of the bulk-action control. *)
Definition onDeleteSuccess : list (React.SetStateAction RowSelectionState) :=
  [React.SetValue ∅].

(** *** Cells *)

(** Column [id]: [value && typeof value === "string"]. *)
Definition id_cell (projectId : string) (row : TracesTableRow.t Score)
  : optional TableLink.t :=
  let value := TracesTableRow.id row in
  if truthy_string (defined value) then
    defined
      {| TableLink.path :=
           String.append "/project/"
             (String.append projectId (String.append "/traces/" value));
         TableLink.value := value;
         TableLink.truncateAt := undefined |}
  else undefined.

(** Column [userId]; the path is built before the link is, so the cell
    throws what [encodeURIComponent] throws. *)
Definition userId_cell (projectId : string) (row : TracesTableRow.t Score)
  : completion (optional TableLink.t) :=
  let value := TracesTableRow.userId row in
  if truthy_string (defined value) then
    Js.bind (encodeURIComponent value) (fun encoded =>
      Normal
        (defined
           {| TableLink.path :=
                String.append "/project/"
                  (String.append projectId (String.append "/users/" encoded));
              TableLink.value := value;
              TableLink.truncateAt := defined 40%nat |}))
  else Normal undefined.

(** Column [sessionId]. *)
Definition sessionId_cell (projectId : string) (row : TracesTableRow.t Score)
  : completion (optional TableLink.t) :=
  match TracesTableRow.sessionId row with
  | defined value =>
      if truthy_string (defined value) then
        Js.bind (encodeURIComponent value) (fun encoded =>
          Normal
            (defined
               {| TableLink.path :=
                    String.append "/project/"
                      (String.append projectId
                         (String.append "/sessions/" encoded));
                  TableLink.value := value;
                  TableLink.truncateAt := defined 40%nat |}))
      else Normal undefined
  | undefined => Normal undefined
  end.

(** [Decimal.prototype.toNumber]; rounding to a double is not modelled. *)
Definition toNumber (d : Q) : number := Finite d.

(** The text of the [span] of a cost cell; a [Decimal] is an object, so
    every defined cost is truthy. *)
Definition cost_cell (cost : optional Q) : string :=
  match cost with
  | defined c => usdFormatter (toNumber c)
  | undefined => "-"
  end.

Definition inputCost_cell (row : TracesTableRow.t Score) : string :=
  cost_cell (TracesTableRow.inputCost row).

Definition outputCost_cell (row : TracesTableRow.t Score) : string :=
  cost_cell (TracesTableRow.outputCost row).

Definition totalCost_cell (row : TracesTableRow.t Score) : string :=
  cost_cell (TracesTableRow.totalCost row).

(** Columns [inputTokens], [outputTokens] and [totalTokens]: the text of
    the [span]; each reads the [usage] value of the row. *)
Definition inputTokens_cell (row : TracesTableRow.t Score) : string :=
  numberFormatter (Usage.promptTokens (TracesTableRow.usage row)) 0.

Definition outputTokens_cell (row : TracesTableRow.t Score) : string :=
  numberFormatter (Usage.completionTokens (TracesTableRow.usage row)) 0.

Definition totalTokens_cell (row : TracesTableRow.t Score) : string :=
  numberFormatter (Usage.totalTokens (TracesTableRow.usage row)) 0.

End TracesTableRest.

(** *** The column definitions *)

(** [!omittedFilter.find((f) => f === columnId)] *)
Definition enableColumnFilter_of (omitted : list string) (columnId : string)
  : bool :=
  negb (truthy_string (Array_find (fun f => String.eqb f columnId) omitted)).

Definition columns (omitted : list string) : list LangfuseColumnDef.t :=
  let col := LangfuseColumnDef.mk in
  let tip d h := defined (LangfuseColumnDef.mk_tooltip d h) in
  let label := LangfuseColumnDef.Label in
  let yes := defined true in
  let unset := @undefined bool in
  [ col (defined "select") "select" LangfuseColumnDef.Render undefined true
      unset unset unset unset;
    col (defined "bookmarked") "bookmarked" LangfuseColumnDef.NoHeader
      undefined true yes unset unset unset;
    col (defined "id") "id" (label "ID") undefined true yes unset unset unset;
    col (defined "timestamp") "timestamp" (label "Timestamp") undefined false
      yes yes unset unset;
    col (defined "name") "name" (label "Name") undefined false
      yes yes unset unset;
    col (defined "userId") "userId" (label "User")
      (tip "Add `userId` to traces to track users."
         "https://langfuse.com/docs/tracing-features/users")
      true yes yes unset unset;
    col (defined "sessionId") "sessionId" (label "Session")
      (tip "Add `sessionId` to traces to track sessions."
         "https://langfuse.com/docs/tracing-features/sessions")
      true yes yes unset
      (defined (enableColumnFilter_of omitted "sessionId"));
    col (defined "latency") "latency" (label "Latency") undefined true
      yes yes unset unset;
    col (defined "inputTokens") "inputTokens" (label "Input Tokens") undefined
      true yes yes yes unset;
    col (defined "outputTokens") "outputTokens" (label "Output Tokens")
      undefined true yes yes yes unset;
    col (defined "totalTokens") "totalTokens" (label "Total Tokens") undefined
      true yes yes yes unset;
    col (defined "usage") "usage" (label "Usage") undefined true
      yes yes unset unset;
    col (defined "inputCost") "inputCost" (label "Input Cost") undefined true
      yes yes yes unset;
    col (defined "outputCost") "outputCost" (label "Output Cost") undefined
      true yes yes yes unset;
    col (defined "totalCost") "totalCost" (label "Total Cost") undefined true
      yes yes unset unset;
    col (defined "scores") "scores" (label "Scores")
      (tip "Scores are used to evaluate the quality of the trace. They can be automated, based on user feedback, or manually annotated. See docs to learn more."
         "https://langfuse.com/docs/scores")
      true unset yes unset
      (defined (enableColumnFilter_of omitted "scores"));
    col (defined "input") "input" (label "Input") undefined true
      unset yes yes unset;
    col (defined "output") "output" (label "Output") undefined true
      unset yes yes unset;
    col undefined "metadata" (label "Metadata")
      (tip "Add metadata to traces to track additional information."
         "https://langfuse.com/docs/tracing-features/metadata")
      true unset yes yes unset;
    col (defined "level") "level" (label "Level") undefined true
      yes yes yes unset;
    col (defined "observationCount") "observationCount"
      (label "Observation Count") undefined false unset yes yes unset;
    col (defined "version") "version" (label "Version")
      (tip "Track changes via the version tag."
         "https://langfuse.com/docs/experimentation")
      false yes yes yes unset;
    col (defined "release") "release" (label "Release")
      (tip "Track changes to your application via the release tag."
         "https://langfuse.com/docs/experimentation")
      false yes yes yes unset;
    col (defined "tags") "tags" (label "Tags")
      (tip "Group traces with tags."
         "https://langfuse.com/docs/tracing-features/tags")
      true unset yes unset unset;
    col undefined "action" (label "Action") undefined true
      unset unset unset unset ].

(** *** Integer arithmetic used to state the page count *)

(** The ceiling of [a / b] for integers, [b] positive. *)
Definition ceil_div (a b : Z) : Z := (- (- a / b))%Z.

(** The number of binary digits of a mantissa. *)
Definition digits (p : positive) : Z := Z.pos (SpecFloat.digits2_pos p).

(** The last step of [SpecFloat.binary_round_aux]: the rounded mantissa is
    renormalised and packed. *)
Definition pack (s : bool) (m e : Z) : double :=
  let '(mrs, e') := SpecFloat.shr_fexp prec emax m e SpecFloat.loc_Exact in
  match SpecFloat.shr_m mrs with
  | Z0 => SpecFloat.S754_zero s
  | Z.pos m' =>
      if (e' <=? emax - prec)%Z then SpecFloat.S754_finite s m' e'
      else SpecFloat.S754_infinity s
  | Z.neg _ => SpecFloat.S754_nan
  end.

(** ** More sample inputs *)

Module Sample2.

(** A string that stands for an unpaired surrogate (U+D800). *)
Definition lone_surrogate : string :=
  String (Ascii.ascii_of_nat 237)
    (String (Ascii.ascii_of_nat 160)
       (String (Ascii.ascii_of_nat 128) EmptyString)).

Definition URIError : string := "URIError".

Definition encodeURIComponent (s : string) : completion string :=
  if String.eqb s lone_surrogate then Throw URIError
  else if String.eqb s "a b" then Normal "a%20b"
  else Normal s.

(** The binary64 value of the literal [0.15]:
    5404319552844595 / 2^55. *)
Definition fifteen_hundredths : double :=
  SpecFloat.S754_finite false 5404319552844595 (-55).

Definition usdFormatter (n : number) : string :=
  match n with
  | Finite q => if Qeq_bool q 0 then "$0.00" else "$?"
  | _ => "$NaN"
  end.

Definition priced (cost : nullable Q) : Trace.t unit :=
  {| Trace.bookmarked := false;
     Trace.id := "t-1";
     Trace.timestamp := 0%Z;
     Trace.name := null;
     Trace.level := DEFAULT;
     Trace.observationCount := 1%Z;
     Trace.release := null;
     Trace.version := null;
     Trace.userId := val "a b";
     Trace.scores := [];
     Trace.sessionId := val "s-1";
     Trace.latency := null;
     Trace.tags := [];
     Trace.promptTokens := 1%Z;
     Trace.completionTokens := 2%Z;
     Trace.totalTokens := 3%Z;
     Trace.calculatedInputCost := cost;
     Trace.calculatedOutputCost := cost;
     Trace.calculatedTotalCost := cost |}.

Definition since (d : Z) : FilterCondition.t :=
  FilterCondition.mk "Timestamp" "datetime" ">" (FilterCondition.DateValue d).

Definition named (n : string) : FilterCondition.t :=
  FilterCondition.mk "Name" "string" "=" (FilterCondition.StringValue n).

End Sample2.

(** ** Properties *)

(** *** Generic facts about the JavaScript operators *)

Lemma coalesce_null {A B : Type} (inj : A -> B) (d : B) :
  coalesce inj null d = d.
Proof. reflexivity. Qed.

Lemma coalesce_val {A B : Type} (inj : A -> B) (a : A) (d : B) :
  coalesce inj (val a) d = inj a.
Proof. reflexivity. Qed.

Lemma truthy_string_spec (s : optional string) :
  truthy_string s = true <-> exists u, s = defined u /\ u <> EmptyString.
Proof.
  destruct s as [|u]; simpl.
  - split; [discriminate | intros (u & H & _); discriminate].
  - rewrite negb_true_iff. split.
    + intros H. exists u. split; [reflexivity|].
      intros ->. discriminate.
    + intros (v & [= <-] & Hv). apply String.eqb_neq. exact Hv.
Qed.

Lemma includes_spec (l : list string) (x : string) :
  includes l x = true <-> x ∈ l.
Proof. unfold includes. apply bool_decide_eq_true. Qed.

Lemma Object_keys_spec {V : Type} (o : gmap string V) (k : string) :
  k ∈ Object_keys o <-> is_Some (o !! k).
Proof.
  unfold Object_keys. rewrite list_elem_of_fmap. split.
  - intros ([k' v] & -> & H). apply elem_of_map_to_list in H. by exists v.
  - intros [v H]. exists (k, v). split; [reflexivity|].
    by apply elem_of_map_to_list.
Qed.

Lemma Object_keys_NoDup {V : Type} (o : gmap string V) :
  NoDup (Object_keys o).
Proof. apply NoDup_fst_map_to_list. Qed.

Lemma flush_app {S : Type} (q1 q2 : list (React.SetStateAction S)) (s : S) :
  React.flush (q1 ++ q2) s = React.flush q2 (React.flush q1 s).
Proof. unfold React.flush. apply fold_left_app. Qed.

(** *** Binary64 division of integers

    [SpecFloat]'s division on the normal forms of two integers below 2^53,
    followed step by step: the quotient of the aligned mantissas has 53 or
    54 bits, and the rounded result never crosses an integer. *)

Section DoubleArithmetic.

Local Open Scope Z_scope.

(** Decide the overflow test of [pack] when the exponent is in range. *)
Ltac case_leb :=
  match goal with
  | |- context [(?x <=? ?y)] =>
      destruct (Z.leb_spec x y) as [_|?]; [|unfold emax, prec in *; lia]
  end.

Lemma digits_bounds (p : positive) :
  2 ^ (digits p - 1) <= Z.pos p < 2 ^ digits p.
Proof.
  unfold digits. induction p as [p IH|p IH|]; simpl SpecFloat.digits2_pos.
  - rewrite Pos2Z.inj_succ.
    replace (Z.succ (Z.pos (SpecFloat.digits2_pos p)) - 1)
      with (Z.succ (Z.pos (SpecFloat.digits2_pos p) - 1)) by lia.
    rewrite !Z.pow_succ_r by lia. lia.
  - rewrite Pos2Z.inj_succ.
    replace (Z.succ (Z.pos (SpecFloat.digits2_pos p)) - 1)
      with (Z.succ (Z.pos (SpecFloat.digits2_pos p) - 1)) by lia.
    rewrite !Z.pow_succ_r by lia. lia.
  - simpl. lia.
Qed.

Lemma digits_unique (p : positive) (k : Z) :
  2 ^ (k - 1) <= Z.pos p < 2 ^ k -> digits p = k.
Proof.
  intros [Hlo Hhi]. pose proof (digits_bounds p) as [Hlo' Hhi'].
  assert (0 < digits p) by (unfold digits; lia).
  assert (0 < k).
  { destruct (Z_lt_le_dec 0 k) as [|Hk]; [done|].
    rewrite Z.pow_neg_r in Hlo by lia.
    destruct (Z.eq_dec k 0) as [->|]; [simpl in Hhi; lia|].
    rewrite Z.pow_neg_r in Hhi by lia. lia. }
  destruct (Z.lt_trichotomy (digits p) k) as [Hlt|[Heq|Hgt]]; [|done|].
  - assert (2 ^ digits p <= 2 ^ (k - 1)) by (apply Z.pow_le_mono_r; lia). lia.
  - assert (2 ^ k <= 2 ^ (digits p - 1)) by (apply Z.pow_le_mono_r; lia). lia.
Qed.

Lemma iter_xO (p d : positive) :
  Z.pos (Pos.iter xO p d) = Z.pos p * 2 ^ Z.pos d.
Proof.
  induction d as [|d IH] using Pos.peano_ind.
  - simpl. lia.
  - rewrite Pos.iter_succ, Pos2Z.inj_succ, Z.pow_succ_r by lia.
    rewrite Pos2Z.inj_xO, IH. lia.
Qed.

Lemma shr_fexp_53 (m : positive) (e : Z) (l : SpecFloat.location) :
  digits m = 53 -> -1074 <= e ->
  SpecFloat.shr_fexp prec emax (Z.pos m) e l
  = (SpecFloat.shr_record_of_loc (Z.pos m) l, e).
Proof.
  intros Hm He. unfold SpecFloat.shr_fexp, SpecFloat.Zdigits2.
  fold (digits m). rewrite Hm.
  unfold SpecFloat.fexp, SpecFloat.emin, prec, emax.
  replace (Z.max (53 + e - 53) (3 - 1024 - 53) - e) with 0 by lia.
  reflexivity.
Qed.

Lemma shr_fexp_54 (m : positive) (e : Z) (l : SpecFloat.location) :
  digits m = 54 -> -1075 <= e ->
  SpecFloat.shr_fexp prec emax (Z.pos m) e l
  = (SpecFloat.shr_1 (SpecFloat.shr_record_of_loc (Z.pos m) l), e + 1).
Proof.
  intros Hm He. unfold SpecFloat.shr_fexp, SpecFloat.Zdigits2.
  fold (digits m). rewrite Hm.
  unfold SpecFloat.fexp, SpecFloat.emin, prec, emax.
  replace (Z.max (54 + e - 53) (3 - 1024 - 53) - e) with 1 by lia.
  reflexivity.
Qed.

(** Rounding a mantissa that already has 53 bits, exactly located. *)
Lemma binary_round_aux_exact (s : bool) (m : positive) (e : Z) :
  digits m = 53 -> -1074 <= e <= 971 ->
  SpecFloat.binary_round_aux prec emax s (Z.pos m) e SpecFloat.loc_Exact
  = SpecFloat.S754_finite s m e.
Proof.
  intros Hm He. unfold SpecFloat.binary_round_aux.
  rewrite shr_fexp_53 by (first [done | lia]). cbn.
  rewrite shr_fexp_53 by (first [done | lia]). cbn.
  case_leb. done.
Qed.

Lemma Number_normal (p : positive) :
  Z.pos p < 2 ^ 53 ->
  exists m e,
    Number (Z.pos p) = SpecFloat.S754_finite false m e
    /\ digits m = 53
    /\ -52 <= e <= 0
    /\ Z.pos m = Z.pos p * 2 ^ (- e)
    /\ e = digits p - 53.
Proof.
  intros Hp. pose proof (digits_bounds p) as [Hlo Hhi].
  assert (0 < digits p) as Hpos by (unfold digits; lia).
  assert (digits p <= 53) as Hle.
  { destruct (Z_le_gt_dec (digits p) 53) as [|Hgt]; [done|].
    assert (2 ^ 53 <= 2 ^ (digits p - 1)) by (apply Z.pow_le_mono_r; lia). lia. }
  unfold Number, SpecFloat.binary_normalize, SpecFloat.binary_round.
  unfold SpecFloat.shl_align, SpecFloat.fexp, SpecFloat.emin, prec, emax.
  fold (digits p).
  replace (Z.max (digits p + 0 - 53) (3 - 1024 - 53) - 0) with (digits p - 53) by lia.
  replace (Z.max (digits p + 0 - 53) (3 - 1024 - 53)) with (digits p - 53) by lia.
  destruct (digits p - 53) as [|d|d] eqn:Hd; [| lia |].
  - exists p, 0. rewrite binary_round_aux_exact by lia.
    repeat split; try lia.
  - exists (Pos.iter xO p d), (Z.neg d).
    assert (Z.pos (Pos.iter xO p d) = Z.pos p * 2 ^ Z.pos d) as Hm by apply iter_xO.
    assert (digits (Pos.iter xO p d) = 53) as Hs.
    { apply digits_unique. rewrite Hm.
      assert (0 < 2 ^ Z.pos d) by (apply Z.pow_pos_nonneg; lia).
      assert (2 ^ (53 - 1) = 2 ^ (digits p - 1) * 2 ^ Z.pos d) as ->.
      { rewrite <- Z.pow_add_r by lia. f_equal. lia. }
      assert (2 ^ 53 = 2 ^ digits p * 2 ^ Z.pos d) as ->.
      { rewrite <- Z.pow_add_r by lia. f_equal. lia. }
      split; [apply Z.mul_le_mono_nonneg_r | apply Z.mul_lt_mono_pos_r]; lia. }
    rewrite binary_round_aux_exact by (first [done | lia]).
    repeat split; try lia. done.
Qed.

Lemma binary_round_aux_pack (s : bool) (m e : Z) (l : SpecFloat.location) :
  SpecFloat.binary_round_aux prec emax s m e l
  = let '(mrs, e') := SpecFloat.shr_fexp prec emax m e l in
    pack s
      (SpecFloat.round_nearest_even (SpecFloat.shr_m mrs)
         (SpecFloat.loc_of_shr_record mrs))
      e'.
Proof. reflexivity. Qed.

Lemma loc_of_shr_record_of_loc (m : Z) (l : SpecFloat.location) :
  SpecFloat.loc_of_shr_record (SpecFloat.shr_record_of_loc m l) = l.
Proof. destruct l as [|[]]; reflexivity. Qed.

Lemma shr_m_of_loc (m : Z) (l : SpecFloat.location) :
  SpecFloat.shr_m (SpecFloat.shr_record_of_loc m l) = m.
Proof. destruct l as [|[]]; reflexivity. Qed.

Lemma pack_spec (m0 : positive) (e : Z) :
  2 ^ 52 <= Z.pos m0 <= 2 ^ 53 -> -1074 <= e <= 970 ->
  exists M E,
    pack false (Z.pos m0) e = SpecFloat.S754_finite false M E
    /\ digits M = 53
    /\ e <= E <= e + 1
    /\ Z.pos M * 2 ^ (E - e) = Z.pos m0.
Proof.
  intros Hm He. unfold pack.
  destruct (Z_lt_le_dec (Z.pos m0) (2 ^ 53)) as [Hlt|Hge].
  - assert (digits m0 = 53) as Hs by (apply digits_unique; lia).
    rewrite shr_fexp_53 by (first [done | lia]). cbn.
    case_leb.
    exists m0, e. split; [done|]. split; [done|]. split; [lia|].
    rewrite Z.sub_diag. simpl. lia.
  - assert (m0 = 9007199254740992%positive) as -> by lia.
    rewrite shr_fexp_54 by (first [reflexivity | lia]). cbn.
    case_leb.
    exists 4503599627370496%positive, (e + 1).
    split; [done|]. split; [reflexivity|]. split; [lia|].
    replace (e + 1 - e) with 1 by lia. reflexivity.
Qed.

Lemma binary_round_aux_53 (Q : positive) (e : Z) (l : SpecFloat.location) :
  digits Q = 53 -> -1074 <= e <= 970 ->
  exists M E,
    SpecFloat.binary_round_aux prec emax false (Z.pos Q) e l
    = SpecFloat.S754_finite false M E
    /\ digits M = 53
    /\ e <= E <= e + 1
    /\ (Z.pos M * 2 ^ (E - e) = Z.pos Q
        \/ (Z.pos M * 2 ^ (E - e) = Z.pos Q + 1 /\ l <> SpecFloat.loc_Exact)).
Proof.
  intros Hs He. pose proof (digits_bounds Q) as HQ. rewrite Hs in HQ.
  rewrite binary_round_aux_pack, shr_fexp_53 by (first [done | lia]).
  rewrite shr_m_of_loc, loc_of_shr_record_of_loc.
  assert (SpecFloat.round_nearest_even (Z.pos Q) l = Z.pos Q
          \/ (SpecFloat.round_nearest_even (Z.pos Q) l = Z.pos (Q + 1)
              /\ l <> SpecFloat.loc_Exact)) as [->|[-> Hl]].
  { destruct l as [|[]]; cbn [SpecFloat.round_nearest_even].
    - by left.
    - destruct (Z.even (Z.pos Q)); [by left|].
      right. split; [reflexivity | discriminate].
    - by left.
    - right. split; [reflexivity | discriminate]. }
  - destruct (pack_spec Q e) as (M & E & -> & ? & ? & ?); [lia..|].
    exists M, E. split; [done|]. split; [done|]. split; [lia|]. by left.
  - destruct (pack_spec (Q + 1) e) as (M & E & -> & ? & ? & ?); [lia..|].
    exists M, E. split; [done|]. split; [done|]. split; [lia|].
    right. split; [lia | done].
Qed.

Lemma binary_round_aux_54 (Q : positive) (e : Z) (l : SpecFloat.location) :
  digits Q = 54 -> -1075 <= e <= 969 ->
  exists M E,
    SpecFloat.binary_round_aux prec emax false (Z.pos Q) e l
    = SpecFloat.S754_finite false M E
    /\ digits M = 53
    /\ e + 1 <= E <= e + 2
    /\ ((Z.pos M * 2 ^ (E - e) = Z.pos Q /\ Z.even (Z.pos Q) = true)
        \/ (Z.pos M * 2 ^ (E - e) = Z.pos Q + 1 /\ Z.even (Z.pos Q) = false)
        \/ (Z.pos M * 2 ^ (E - e) = Z.pos Q - 1 /\ Z.even (Z.pos Q) = false
            /\ l = SpecFloat.loc_Exact)).
Proof.
  intros Hs He. pose proof (digits_bounds Q) as HQ. rewrite Hs in HQ.
  rewrite binary_round_aux_pack, shr_fexp_54 by (first [done | lia]).
  assert (forall (M : positive) (E : Z) (m0 : positive),
             Z.pos M * 2 ^ (E - (e + 1)) = Z.pos m0 -> e + 1 <= E ->
             Z.pos M * 2 ^ (E - e) = 2 * Z.pos m0) as Hscale.
  { intros M E m0 H HE. replace (E - e) with (Z.succ (E - (e + 1))) by lia.
    rewrite Z.pow_succ_r by lia. lia. }
  destruct Q as [q|q|]; [| |simpl in HQ; lia].
  - (* Q = 2q + 1 *)
    assert (SpecFloat.shr_1 (SpecFloat.shr_record_of_loc (Z.pos q~1) l)
            = SpecFloat.Build_shr_record (Z.pos q) true
                (match l with SpecFloat.loc_Exact => false | _ => true end))
      as ->.
    { destruct l as [|[]]; reflexivity. }
    cbn [SpecFloat.shr_m].
    destruct l as [|c].
    + cbn [SpecFloat.loc_of_shr_record SpecFloat.round_nearest_even].
      destruct (Z.even (Z.pos q)) eqn:Ev.
      * destruct (pack_spec q (e + 1)) as (M & E & -> & ? & ? & HM); [lia..|].
        exists M, E. split; [done|]. split; [done|]. split; [lia|].
        right. right. rewrite (Hscale M E q) by lia. split; [lia|]. done.
      * replace (Z.pos q + 1) with (Z.pos (q + 1)) by lia.
        destruct (pack_spec (q + 1) (e + 1)) as (M & E & -> & ? & ? & HM);
          [lia..|].
        exists M, E. split; [done|]. split; [done|]. split; [lia|].
        right. left. rewrite (Hscale M E (q + 1)%positive) by lia.
        split; [lia | done].
    + assert (SpecFloat.loc_of_shr_record
                (SpecFloat.Build_shr_record (Z.pos q) true true)
              = SpecFloat.loc_Inexact Gt) as -> by reflexivity.
      cbn [SpecFloat.round_nearest_even].
      replace (Z.pos q + 1) with (Z.pos (q + 1)) by lia.
      destruct (pack_spec (q + 1) (e + 1)) as (M & E & -> & ? & ? & HM);
        [lia..|].
      exists M, E. split; [done|]. split; [done|]. split; [lia|].
      right. left. rewrite (Hscale M E (q + 1)%positive) by lia.
      split; [lia | done].
  - (* Q = 2q *)
    assert (exists b,
               SpecFloat.shr_1 (SpecFloat.shr_record_of_loc (Z.pos q~0) l)
               = SpecFloat.Build_shr_record (Z.pos q) false b) as [b ->].
    { destruct l as [|[]]; eexists; reflexivity. }
    cbn [SpecFloat.shr_m].
    assert (SpecFloat.round_nearest_even (Z.pos q)
              (SpecFloat.loc_of_shr_record
                 (SpecFloat.Build_shr_record (Z.pos q) false b))
            = Z.pos q) as ->.
    { destruct b; reflexivity. }
    destruct (pack_spec q (e + 1)) as (M & E & -> & ? & ? & HM); [lia..|].
    exists M, E. split; [done|]. split; [done|]. split; [lia|].
    left. rewrite (Hscale M E q) by lia. split; [lia | done].
Qed.

Lemma new_location_exact (n r : Z) :
  SpecFloat.new_location n r = SpecFloat.loc_Exact <-> r = 0.
Proof.
  unfold SpecFloat.new_location, SpecFloat.new_location_even,
    SpecFloat.new_location_odd.
  destruct (Z.even n), (Z.eqb_spec r 0); split; try done.
Qed.

Lemma div_normal (m1 m2 : positive) (e1 e2 : Z) :
  digits m1 = 53 -> digits m2 = 53 -> -52 <= e1 - e2 <= 52 ->
  div (SpecFloat.S754_finite false m1 e1) (SpecFloat.S754_finite false m2 e2)
  = SpecFloat.binary_round_aux prec emax false
      (Z.pos m1 * 2 ^ 53 / Z.pos m2) (e1 - e2 - 53)
      (SpecFloat.new_location (Z.pos m2) ((Z.pos m1 * 2 ^ 53) mod Z.pos m2)).
Proof.
  intros H1 H2 He. unfold div, SpecFloat.SFdiv, SpecFloat.SFdiv_core_binary.
  unfold SpecFloat.Zdigits2. fold (digits m1) (digits m2). rewrite H1, H2.
  unfold SpecFloat.fexp, SpecFloat.emin, prec, emax.
  replace (Z.min (Z.max (53 + e1 - (53 + e2) - 53) (3 - 1024 - 53)) (e1 - e2))
    with (e1 - e2 - 53) by lia.
  replace (e1 - e2 - (e1 - e2 - 53)) with 53 by lia.
  cbn [xorb].
  replace (Z.shiftl (Z.pos m1) 53) with (Z.pos m1 * 2 ^ 53)
    by (symmetry; apply Z.shiftl_mul_pow2; lia).
  unfold Z.div, Z.modulo.
  destruct (Z.div_eucl (Z.pos m1 * 2 ^ 53) (Z.pos m2)) as [q r].
  reflexivity.
Qed.

Lemma ceil_div_bounds (a b : Z) :
  0 < b -> (ceil_div a b - 1) * b < a <= ceil_div a b * b.
Proof.
  intros Hb. unfold ceil_div.
  pose proof (Z.div_mod (- a) b ltac:(lia)) as Hdm.
  pose proof (Z.mod_pos_bound (- a) b Hb) as Hm. nia.
Qed.

Lemma ceil_div_unique (a b k : Z) :
  0 < b -> (k - 1) * b < a <= k * b -> ceil_div a b = k.
Proof.
  intros Hb Hk. pose proof (ceil_div_bounds a b Hb). nia.
Qed.

Lemma rounded_quotient_ceil (a b B S Q R K T : Z) :
  0 < a -> 0 < b -> 0 < B -> b < S -> Z.even S = true ->
  a * S * B = b * B * Q + R -> 0 <= R < b * B ->
  (K - 1) * b < a <= K * b ->
  (T = Q \/ (T = Q + 1 /\ R <> 0)
   \/ (T = Q - 1 /\ Z.even Q = false /\ R = 0)
   \/ (T = Q + 1 /\ Z.even Q = false)) ->
  (K - 1) * S < T <= K * S.
Proof.
  intros Ha Hb HB HS Hev Heq HR HK HT.
  assert (0 < b * B) as HbB by nia.
  assert (Q <= K * S) as F1.
  { destruct (Z_le_gt_dec Q (K * S)) as [|Hgt]; [done|]. exfalso.
    assert (b * B * (K * S + 1) <= b * B * Q) by (apply Z.mul_le_mono_nonneg_l; lia).
    assert (0 <= S * B) by nia.
    assert (a * (S * B) <= K * b * (S * B)) by (apply Z.mul_le_mono_nonneg_r; lia).
    lia. }
  assert ((K - 1) * S + 1 <= Q) as F2.
  { destruct (Z_le_gt_dec ((K - 1) * S + 1) Q) as [|Hgt]; [done|]. exfalso.
    assert (b * B * Q <= b * B * ((K - 1) * S)) by (apply Z.mul_le_mono_nonneg_l; lia).
    assert (0 <= S * B) by nia.
    assert (((K - 1) * b + 1) * (S * B) <= a * (S * B)) by (apply Z.mul_le_mono_nonneg_r; lia).
    assert (b * B < S * B) by (apply Z.mul_lt_mono_pos_r; lia).
    lia. }
  assert (R <> 0 -> Q <> K * S) as F3.
  { intros HR0 ->. assert (0 <= S * B) by nia.
    assert (a * (S * B) <= K * b * (S * B)) by (apply Z.mul_le_mono_nonneg_r; lia).
    lia. }
  assert (R = 0 -> (K - 1) * S + 2 <= Q) as F4.
  { intros ->. destruct (Z_le_gt_dec ((K - 1) * S + 2) Q) as [|Hgt]; [done|].
    exfalso. assert (Q = (K - 1) * S + 1) as -> by lia.
    assert (0 <= S * B) by nia.
    assert (((K - 1) * b + 1) * (S * B) <= a * (S * B)) by (apply Z.mul_le_mono_nonneg_r; lia).
    assert (b * B < S * B) by (apply Z.mul_lt_mono_pos_r; lia).
    lia. }
  apply Z.even_spec in Hev as [S' ->].
  destruct HT as [->|[[-> HR0]|[[-> [Hodd ->]]|[-> Hodd]]]].
  - lia.
  - specialize (F3 HR0). lia.
  - specialize (F4 eq_refl). lia.
  - assert (Z.odd Q = true) as [k ->]%Z.odd_spec
        by (rewrite <- Z.negb_even, Hodd; done).
    lia.
Qed.

Lemma scaled_between (x S K : Z) :
  0 < S -> (K - 1) * S < x * S <= K * S -> x = K.
Proof. intros HS H. nia. Qed.

Lemma scaled_bounds_cancel (M D P K : Z) :
  0 < P -> (K - 1) * (D * P) < M * P <= K * (D * P) ->
  (K - 1) * D < M <= K * D.
Proof. intros HP H. nia. Qed.

Lemma ceil_div_range (a b K : Z) :
  0 < a -> 0 < b -> (K - 1) * b < a <= K * b -> 1 <= K <= a.
Proof. intros Ha Hb H. nia. Qed.

Lemma pow2_ge_2 (E : Z) : 0 < E -> 2 <= 2 ^ E.
Proof.
  intros HE. change 2 with (2 ^ 1) at 1. apply Z.pow_le_mono_r; lia.
Qed.

Lemma mantissa_integer_small (M P K : Z) :
  2 ^ 52 <= M -> M * P = K -> K < 2 ^ 53 -> 1 <= P -> P < 2.
Proof. intros HM HK HK2 HP. nia. Qed.

(** The page-count computation on integers: dividing two integers below
    2^53 as binary64 values and rounding up gives the integer ceiling. *)
Lemma ceil_div_Number (a b : Z) :
  0 <= a < 2 ^ 53 -> 0 < b < 2 ^ 53 ->
  Math_ceil (div (Number a) (Number b)) = Number (ceil_div a b).
Proof.
  intros Ha Hb.
  destruct b as [|b|b]; [lia| |lia].
  destruct (Number_normal b) as (m2 & e2 & -> & Hs2 & He2 & Hm2 & He2'); [lia|].
  destruct a as [|a|a]; [| |lia].
  - reflexivity.
  - destruct (Number_normal a) as (m1 & e1 & -> & Hs1 & He1 & Hm1 & He1');
      [lia|].
    rewrite div_normal by (first [done | lia]).
    pose proof (digits_bounds m1) as Hb1. rewrite Hs1 in Hb1.
    pose proof (digits_bounds m2) as Hb2. rewrite Hs2 in Hb2.
    pose proof (digits_bounds b) as Hbb.
    set (e := e1 - e2 - 53).
    set (Q := Z.pos m1 * 2 ^ 53 / Z.pos m2).
    set (R := (Z.pos m1 * 2 ^ 53) mod Z.pos m2).
    set (K := ceil_div (Z.pos a) (Z.pos b)).
    pose proof (ceil_div_bounds (Z.pos a) (Z.pos b) ltac:(lia)) as HK.
    fold K in HK.
    pose proof (ceil_div_range (Z.pos a) (Z.pos b) K ltac:(lia) ltac:(lia) HK)
      as HK1.
    pose proof (Z.div_mod (Z.pos m1 * 2 ^ 53) (Z.pos m2) ltac:(lia)) as Hdm.
    pose proof (Z.mod_pos_bound (Z.pos m1 * 2 ^ 53) (Z.pos m2) ltac:(lia)) as HR.
    fold Q R in Hdm, HR.
    assert (2 ^ 52 <= Q) as HQlo.
    { apply Z.div_le_lower_bound; lia. }
    assert (Q < 2 ^ 54) as HQhi.
    { apply Z.div_lt_upper_bound; lia. }
    set (S := 2 ^ (- e)).
    assert (S * 2 ^ (- e2) = 2 ^ 53 * 2 ^ (- e1)) as HSB.
    { unfold S, e. rewrite <- !Z.pow_add_r by lia. f_equal. lia. }
    assert (0 < 2 ^ (- e2)) as HBpos by (apply Z.pow_pos_nonneg; lia).
    assert (0 < 2 ^ (- e1)) as HApos by (apply Z.pow_pos_nonneg; lia).
    assert (Z.pos b < S) as HbS.
    { assert (2 ^ digits b <= S); [|lia].
      unfold S, e. apply Z.pow_le_mono_r; lia. }
    assert (Z.even S = true) as HSev.
    { unfold S. replace (- e) with (Z.succ (- e - 1)) by lia.
      rewrite Z.pow_succ_r by lia. rewrite Z.even_mul. reflexivity. }
    assert (Z.pos a * S * 2 ^ (- e2)
            = Z.pos b * 2 ^ (- e2) * Q + R) as Heq.
    { transitivity (Z.pos a * 2 ^ (- e1) * 2 ^ 53).
      - rewrite <- Z.mul_assoc, HSB. ring.
      - rewrite <- Hm1, Hdm, Hm2. ring. }
    assert (0 <= R < Z.pos b * 2 ^ (- e2)) as HR' by (rewrite <- Hm2; exact HR).
    assert (exists M E,
               SpecFloat.binary_round_aux prec emax false Q e
                 (SpecFloat.new_location (Z.pos m2) R)
               = SpecFloat.S754_finite false M E
               /\ digits M = 53 /\ e <= E <= e + 2
               /\ (K - 1) * S < Z.pos M * 2 ^ (E - e) <= K * S)
      as (M & E & -> & HsM & HE & HT).
    { destruct Q as [|Qp|Qp] eqn:HQ; [lia| |lia].
      destruct (Z_lt_le_dec (Z.pos Qp) (2 ^ 53)) as [Hlt|Hge].
      - destruct (binary_round_aux_53 Qp e
                    (SpecFloat.new_location (Z.pos m2) R))
          as (M & E & -> & ? & ? & HT); [apply digits_unique; lia | lia |].
        exists M, E. split; [done|]. split; [done|]. split; [lia|].
        apply (rounded_quotient_ceil (Z.pos a) (Z.pos b) (2 ^ (- e2)) S
                 (Z.pos Qp) R K); try done; try lia.
        destruct HT as [->|[-> Hl]]; [by left|].
        right. left. split; [done|]. intros HR0. apply Hl.
        by apply new_location_exact.
      - destruct (binary_round_aux_54 Qp e
                    (SpecFloat.new_location (Z.pos m2) R))
          as (M & E & -> & ? & ? & HT); [apply digits_unique; lia | lia |].
        exists M, E. split; [done|]. split; [done|]. split; [lia|].
        apply (rounded_quotient_ceil (Z.pos a) (Z.pos b) (2 ^ (- e2)) S
                 (Z.pos Qp) R K); try done; try lia.
        destruct HT as [[-> _]|[[-> Hodd]|[-> [Hodd Hl]]]].
        + by left.
        + right. right. right. done.
        + right. right. left. split; [done|]. split; [done|].
          by apply new_location_exact in Hl. }
    pose proof (digits_bounds M) as HbM. rewrite HsM in HbM.
    assert (0 < 2 ^ (E - e)) as HEpos by (apply Z.pow_pos_nonneg; lia).
    unfold Math_ceil.
    destruct (Z.leb_spec 0 E) as [HE0|HE0].
    + assert (S * 2 ^ E = 2 ^ (E - e)) as HSE.
      { unfold S. rewrite <- Z.pow_add_r by lia. f_equal. lia. }
      assert (0 < 2 ^ E) by (apply Z.pow_pos_nonneg; lia).
      assert (Z.pos M * 2 ^ E = K) as HV.
      { apply (scaled_between _ S); [lia|].
        replace (Z.pos M * 2 ^ E * S) with (Z.pos M * 2 ^ (E - e)); [done|].
        rewrite <- HSE. ring. }
      assert (E = 0) as ->.
      { destruct (Z.eq_dec E 0) as [|Hne]; [done|]. exfalso.
        pose proof (pow2_ge_2 E ltac:(lia)).
        pose proof (mantissa_integer_small (Z.pos M) (2 ^ E) K
                      ltac:(lia) HV ltac:(lia) ltac:(lia)).
        lia. }
      change (2 ^ 0) with 1 in HV. rewrite <- HV, Z.mul_1_r.
      destruct (Number_normal M) as (m & e' & -> & _ & _ & Hm & He'); [lia|].
      rewrite HsM in He'. subst e'. change (2 ^ (- (53 - 53))) with 1 in Hm.
      f_equal; lia.
    + assert (- (- Z.pos M / 2 ^ (- E)) = K) as ->.
      { apply ceil_div_unique; [apply Z.pow_pos_nonneg; lia|].
        assert (S = 2 ^ (- E) * 2 ^ (E - e)) as HSE.
        { unfold S. rewrite <- Z.pow_add_r by lia. f_equal. lia. }
        rewrite HSE in HT.
        by apply (scaled_bounds_cancel _ _ (2 ^ (E - e))). }
      destruct (Z.eqb_spec K 0); [lia | reflexivity].
Qed.

Lemma pageCount_integers (total size : Z) (pageIndex : double) :
  0 <= total < 2 ^ 53 -> 0 < size < 2 ^ 53 ->
  pageCount total (PaginationState.mk pageIndex (Number size))
  = Number (ceil_div total size).
Proof. intros Ht Hs. unfold pageCount. simpl. by apply ceil_div_Number. Qed.

Lemma ceil_div_least (a b m : Z) :
  0 < b -> ceil_div a b <= m <-> a <= m * b.
Proof.
  intros Hb. pose proof (ceil_div_bounds a b Hb) as [Hlo Hhi]. split.
  - intros Hm. apply Z.le_trans with (ceil_div a b * b); [done|].
    apply Z.mul_le_mono_nonneg_r; lia.
  - intros Hm. destruct (Z_le_gt_dec (ceil_div a b) m) as [|Hgt]; [done|].
    exfalso. assert (m * b <= (ceil_div a b - 1) * b); [|lia].
    apply Z.mul_le_mono_nonneg_r; lia.
Qed.

End DoubleArithmetic.

Section Properties.

Context {Score TraceOptions : Type}.
Variable toLocaleString : Z -> string.
Variable formatIntervalSeconds : number -> string.
Variable tracesTableColsWithOptions :
  optional TraceOptions -> list ColumnDefinition.t.
Variable toggleAllPageRowsSelected :
  bool -> list (React.SetStateAction RowSelectionState).

Local Abbreviation row := (convertToTableRow (Score := Score) toLocaleString).

(** *** The effective filter *)

Lemma userIdFilter_undefined : userIdFilter undefined = [].
Proof. reflexivity. Qed.

Lemma userIdFilter_empty : userIdFilter (defined EmptyString) = [].
Proof. reflexivity. Qed.

Lemma userIdFilter_nonempty (u : string) :
  u <> EmptyString -> userIdFilter (defined u) = [userIdPredicate u].
Proof.
  intros Hu. unfold userIdFilter.
  assert (truthy_string (defined u) = true) as ->; [|reflexivity].
  apply truthy_string_spec. eauto.
Qed.

(** C1 (as amended): the filter of the listing query is the user-editable
    filter list followed by exactly one synthetic predicate on "User ID"
    when a non-empty user id is given, and the user-editable list alone
    when the user id is absent or the empty string; the toolbar is handed
    the user-editable list itself, whatever the user id. *)
Theorem effective_filter_appends_user_predicate
    (props : TracesTableProps.t) (h : Hooks.t Score TraceOptions) :
  TracesAllInput.filter (tracesAllQueryFilter props h)
  = (Hooks.userFilterState h
     ++ match TracesTableProps.userId props with
        | defined u =>
            if decide (u = EmptyString) then [] else [userIdPredicate u]
        | undefined => []
        end)%list
  /\ Rendered.filterState
       (toolbar_props tracesTableColsWithOptions props h)
     = Hooks.userFilterState h.
Proof.
  split; [|reflexivity].
  unfold tracesAllQueryFilter, filterState; simpl. f_equal.
  destruct (TracesTableProps.userId props) as [|u].
  - apply userIdFilter_undefined.
  - destruct (decide (u = EmptyString)) as [->|Hu].
    + apply userIdFilter_empty.
    + by apply userIdFilter_nonempty.
Qed.

(** *** The row transformer *)

(** C2: the row's latency is undefined exactly when the record's latency
    is null, and every non-null latency, 0 included, is passed through
    unchanged. *)
Theorem convertToTableRow_latency (r : Trace.t Score) :
  (TracesTableRow.latency (row r) = undefined <-> Trace.latency r = null)
  /\ (forall l : number,
        Trace.latency r = val l ->
        TracesTableRow.latency (row r) = defined l).
Proof.
  unfold convertToTableRow; simpl.
  destruct (Trace.latency r) as [|l0].
  - split; [tauto | discriminate].
  - split; [split; discriminate | by intros l [= ->]].
Qed.

(** C3: for release, version and sessionId the row's field is undefined
    when the record's field is null and is the record's value unchanged
    otherwise. *)
Theorem convertToTableRow_optional_strings (r : Trace.t Score) :
  ((Trace.release r = null -> TracesTableRow.release (row r) = undefined)
   /\ (forall s, Trace.release r = val s ->
                 TracesTableRow.release (row r) = defined s))
  /\ ((Trace.version r = null -> TracesTableRow.version (row r) = undefined)
      /\ (forall s, Trace.version r = val s ->
                    TracesTableRow.version (row r) = defined s))
  /\ ((Trace.sessionId r = null ->
       TracesTableRow.sessionId (row r) = undefined)
      /\ (forall s, Trace.sessionId r = val s ->
                    TracesTableRow.sessionId (row r) = defined s)).
Proof.
  unfold convertToTableRow; simpl.
  repeat split; intros; match goal with H : _ = _ |- _ => rewrite H end;
    reflexivity.
Qed.

(** C10: a null name and a null userId become the empty string, and a
    non-null one is kept, so both fields of the row are strings. *)
Theorem convertToTableRow_name_userId (r : Trace.t Score) :
  ((Trace.name r = null -> TracesTableRow.name (row r) = EmptyString)
   /\ (forall s, Trace.name r = val s -> TracesTableRow.name (row r) = s))
  /\ ((Trace.userId r = null -> TracesTableRow.userId (row r) = EmptyString)
      /\ (forall s, Trace.userId r = val s ->
                    TracesTableRow.userId (row r) = s)).
Proof.
  unfold convertToTableRow; simpl.
  repeat split; intros; match goal with H : _ = _ |- _ => rewrite H end;
    reflexivity.
Qed.

(** *** The header checkbox *)

Lemma select_header_keep (value : CheckedState) :
  truthy_checked value = true ->
  select_header_onCheckedChange toggleAllPageRowsSelected value
  = toggleAllPageRowsSelected true.
Proof.
  intros H. unfold select_header_onCheckedChange. rewrite H; simpl.
  apply app_nil_r.
Qed.

(** C4: whatever was selected before, and whatever the table library
    does for the page-wide toggle, unchecking the header checkbox leaves
    the selection state empty. *)
Theorem select_header_uncheck_clears (prior : RowSelectionState) :
  React.flush
    (select_header_onCheckedChange toggleAllPageRowsSelected (Checked false))
    prior
  = ∅.
Proof.
  unfold select_header_onCheckedChange; simpl.
  rewrite flush_app. reflexivity.
Qed.

(** *** The bulk-action control *)

Lemma on_current_page_spec (d : TracesAllOutput.t Score) (traceId : string) :
  on_current_page (defined d) traceId = true
  <-> traceId ∈ map Trace.id (TracesAllOutput.traces d).
Proof. unfold on_current_page; simpl. apply includes_spec. Qed.

Lemma on_current_page_undefined (traceId : string) :
  on_current_page (Score := Score) undefined traceId = false.
Proof. reflexivity. Qed.

Lemma selected_on_page_spec (selectedRows : RowSelectionState)
    (d : TracesAllOutput.t Score) (traceId : string) :
  traceId ∈ List.filter (on_current_page (defined d))
              (Object_keys selectedRows)
  <-> is_Some (selectedRows !! traceId)
      /\ traceId ∈ map Trace.id (TracesAllOutput.traces d).
Proof.
  rewrite list_elem_of_In, filter_In, <- list_elem_of_In.
  by rewrite Object_keys_spec, on_current_page_spec.
Qed.

(** C5: with a loaded page, the bulk-action control is rendered exactly
    when some key of the selection is an id of the page, and the ids it
    is given are exactly the keys of the selection that are ids of the
    page, each once. *)
Theorem actionButtons_current_page (selectedRows : RowSelectionState)
    (d : TracesAllOutput.t Score) (projectId : string) :
  (actionButtons selectedRows (defined d) projectId <> null
   <-> exists traceId,
         is_Some (selectedRows !! traceId)
         /\ traceId ∈ map Trace.id (TracesAllOutput.traces d))
  /\ (forall a,
        actionButtons selectedRows (defined d) projectId = val a ->
        NoDup (MultiSelectAction.selectedTraceIds a)
        /\ forall traceId,
             traceId ∈ MultiSelectAction.selectedTraceIds a
             <-> is_Some (selectedRows !! traceId)
                 /\ traceId ∈ map Trace.id (TracesAllOutput.traces d)).
Proof.
  unfold actionButtons.
  pose proof (selected_on_page_spec selectedRows d) as Hin.
  destruct (List.filter _ _) as [|x l] eqn:E; simpl.
  - split.
    + split; [done|]. intros (t & Ht). apply Hin in Ht. by inversion Ht.
    + discriminate.
  - split.
    + split; [|discriminate]. intros _. exists x. apply Hin. left.
    + intros a [= <-]; simpl. split; [|exact Hin].
      rewrite <- E. apply NoDup_ListNoDup, List.NoDup_filter, NoDup_ListNoDup, Object_keys_NoDup.
Qed.

Lemma actionButtons_not_loaded (selectedRows : RowSelectionState)
    (projectId : string) :
  actionButtons (Score := Score) selectedRows undefined projectId = null.
Proof.
  unfold actionButtons.
  assert (List.filter (on_current_page (Score := Score) undefined)
            (Object_keys selectedRows) = []) as ->; [|reflexivity].
  induction (Object_keys selectedRows) as [|k ks IH]; [reflexivity|].
  simpl. exact IH.
Qed.

(** *** The page count *)

Lemma totalCount_defined (d : TracesAllOutput.t Score) :
  totalCount (defined d) = TracesAllOutput.totalCount d.
Proof. reflexivity. Qed.

Lemma totalCount_undefined : totalCount (Score := Score) undefined = 0%Z.
Proof. reflexivity. Qed.

(** C6 (as amended): for an integral total count and an integral page
    size, with 0 <= totalCount < 2^53 and 0 < pageSize < 2^53, the page
    count is the ceiling of the total count divided by the page size, that
    is the least integer [n] with [totalCount <= n * pageSize]; a total of
    101 with pages of 50 gives 3 pages. *)
Theorem pageCount_is_ceiling :
  (forall d : TracesAllOutput.t Score,
      TracesAllOutput.totalCount d = 101%Z ->
      pageCount (totalCount (defined d))
        (PaginationState.mk (Number 0) (Number 50))
      = Number 3)
  /\ (forall (d : TracesAllOutput.t Score) (ps : PaginationState.t)
             (size : Z),
        (0 <= TracesAllOutput.totalCount d < 2 ^ 53)%Z ->
        (0 < size < 2 ^ 53)%Z ->
        PaginationState.pageSize ps = Number size ->
        exists n : Z,
          pageCount (totalCount (defined d)) ps = Number n
          /\ forall m : Z,
               (n <= m)%Z
               <-> (TracesAllOutput.totalCount d <= m * size)%Z).
Proof.
  split.
  - intros d H. rewrite totalCount_defined, H. reflexivity.
  - intros d [pageIndex pageSize] size Htotal Hsize Hps.
    simpl in Hps. subst pageSize. rewrite totalCount_defined.
    exists (ceil_div (TracesAllOutput.totalCount d) size). split.
    + by apply pageCount_integers.
    + intros m. apply ceil_div_least. lia.
Qed.

(** *** The payload of the table renderer *)

(** An object outside the declared result union makes the render throw. *)
Lemma table_data_outside_union :
  table_data (Score := Score) toLocaleString
    (QueryResult.mk false true false undefined null)
  = Throw TypeError.
Proof. reflexivity. Qed.

(** C7: for each of the shapes of the fetch result the render returns
    normally with exactly one payload: the loading payload while the
    fetch is loading, the error payload with the message of the fetch
    error when it failed, the success payload with the transformed rows
    otherwise; the tags of the payload are the loading and error flags of
    the fetch. *)
Theorem table_data_tagged_payload
    (s : QueryResult.status (TracesAllOutput.t Score)) :
  exists p : AsyncTableData.t (TracesTableRow.t Score),
    table_data toLocaleString (QueryResult.of_status s) = Normal p
    /\ match s with
       | QueryResult.Loading => p = AsyncTableData.loading
       | QueryResult.LoadingError e
       | QueryResult.RefetchError e _ =>
           p = AsyncTableData.failed (QueryResult.message e)
       | QueryResult.Success d =>
           p = AsyncTableData.loaded (map row (TracesAllOutput.traces d))
       end
    /\ AsyncTableData.isLoading p
       = QueryResult.isLoading (QueryResult.of_status s)
    /\ AsyncTableData.isError p
       = QueryResult.isError (QueryResult.of_status s).
Proof.
  destruct s as [|e|e d|d]; simpl; eexists; repeat split; reflexivity.
Qed.

(** The three payloads are pairwise different. *)
Lemma AsyncTableData_exclusive (p : AsyncTableData.t (TracesTableRow.t Score)) :
  match p with
  | AsyncTableData.loading =>
      AsyncTableData.error p = undefined /\ AsyncTableData.data p = undefined
  | AsyncTableData.failed e =>
      AsyncTableData.isLoading p = false /\ AsyncTableData.data p = undefined
  | AsyncTableData.loaded d =>
      AsyncTableData.isLoading p = false /\ AsyncTableData.isError p = false
  end.
Proof. destruct p; split; reflexivity. Qed.

(** *** The latency cell *)

(** C8: a row with a defined latency, 0 in particular, gets the formatted
    duration of that latency in its latency cell; the cell is empty only
    for an undefined latency; so a record with latency 0 is shown with
    the formatted duration of 0. *)
Theorem latency_cell_zero_is_formatted :
  (forall (r : TracesTableRow.t Score) (v : number),
      TracesTableRow.latency r = defined v ->
      latency_cell formatIntervalSeconds r
      = defined (formatIntervalSeconds v))
  /\ (forall r : TracesTableRow.t Score,
        latency_cell formatIntervalSeconds r = undefined
        <-> TracesTableRow.latency r = undefined)
  /\ (forall t : Trace.t Score,
        Trace.latency t = val (Finite 0) ->
        latency_cell formatIntervalSeconds (row t)
        = defined (formatIntervalSeconds (Finite 0))).
Proof.
  unfold latency_cell. repeat split.
  - intros r v ->. reflexivity.
  - destruct (TracesTableRow.latency r); [reflexivity | discriminate].
  - intros ->. reflexivity.
  - intros t Ht. simpl. rewrite Ht. reflexivity.
Qed.

(** *** The filterable columns *)

Lemma filter_sublist {A : Type} (f : A -> bool) (l : list A) :
  sublist (List.filter f l) l.
Proof.
  induction l as [|x l IH]; simpl; [constructor|].
  destruct (f x); by constructor.
Qed.

Lemma transformFilterOptions_spec (omitted : list string)
    (o : optional TraceOptions) (c : ColumnDefinition.t) :
  c ∈ transformFilterOptions tracesTableColsWithOptions omitted o
  <-> c ∈ tracesTableColsWithOptions o /\ ColumnDefinition.name c ∉ omitted.
Proof.
  unfold transformFilterOptions.
  rewrite list_elem_of_In, filter_In, <- list_elem_of_In.
  rewrite negb_true_iff, <- not_true_iff_false, includes_spec. tauto.
Qed.

Lemma omittedFilter_default (projectId : string) (userId : optional string) :
  omittedFilter (TracesTableProps.mk projectId userId undefined) = [].
Proof. reflexivity. Qed.

(** C9: for every omission list given by the caller, the filter column
    definitions handed to the toolbar are the option-annotated columns,
    in their order, without those whose name is in the omission list: no
    column named in the omission list is among them. *)
Theorem filterColumnDefinition_omits (projectId : string)
    (userId : optional string) (omitted : list string)
    (h : Hooks.t Score TraceOptions) :
  let props := TracesTableProps.mk projectId userId (defined omitted) in
  let all := tracesTableColsWithOptions (Hooks.traceFilterOptions_data h) in
  let cols :=
    Rendered.filterColumnDefinition
      (toolbar_props tracesTableColsWithOptions props h) in
  (forall c, c ∈ cols <-> c ∈ all /\ ColumnDefinition.name c ∉ omitted)
  /\ sublist cols all
  /\ Forall (fun c => ColumnDefinition.name c ∉ omitted) cols.
Proof.
  simpl. split; [|split].
  - intros c. apply transformFilterOptions_spec.
  - apply filter_sublist.
  - apply Forall_forall. intros c Hc.
    by apply transformFilterOptions_spec in Hc as [_ ?].
Qed.

End Properties.

(** ** The properties on sample inputs *)

(** C1 (as stated) fails for a user id that is given but empty: nothing is
    appended to the user-editable filter list. *)
Lemma effective_filter_empty_user_id :
  TracesAllInput.filter
    (tracesAllQueryFilter Sample.empty_user_props Sample.idle_hooks)
  = Hooks.userFilterState Sample.idle_hooks
  /\ TracesAllInput.filter
       (tracesAllQueryFilter Sample.empty_user_props Sample.idle_hooks)
     <> (Hooks.userFilterState Sample.idle_hooks
         ++ [userIdPredicate EmptyString])%list.
Proof. split; [reflexivity | discriminate]. Qed.

Example effective_filter_user_scoped :
  filterState [] (defined "u-1") = [userIdPredicate "u-1"].
Proof. reflexivity. Qed.

Lemma convertToTableRow_latency_witness :
  TracesTableRow.latency
    (convertToTableRow Sample.toLocaleString
       (Sample.trace "t-1" null (val (Finite 0))))
  = defined (Finite 0).
Proof.
  apply (proj2 (convertToTableRow_latency Sample.toLocaleString
                  (Sample.trace "t-1" null (val (Finite 0))))).
  reflexivity.
Defined.

Lemma convertToTableRow_optional_strings_witness :
  TracesTableRow.release
    (convertToTableRow Sample.toLocaleString (Sample.trace "t-1" null null))
  = undefined
  /\ TracesTableRow.sessionId
       (convertToTableRow Sample.toLocaleString
          (Sample.trace "t-2" (val "s-1") null))
     = defined "s-1".
Proof.
  split.
  - apply (proj1 (proj1 (convertToTableRow_optional_strings
                           Sample.toLocaleString
                           (Sample.trace "t-1" null null)))).
    reflexivity.
  - apply (proj2 (proj2 (proj2 (convertToTableRow_optional_strings
                                  Sample.toLocaleString
                                  (Sample.trace "t-2" (val "s-1") null))))).
    reflexivity.
Defined.

Lemma convertToTableRow_name_userId_witness :
  TracesTableRow.name
    (convertToTableRow Sample.toLocaleString (Sample.trace "t-1" null null))
  = EmptyString
  /\ TracesTableRow.userId
       (convertToTableRow Sample.toLocaleString
          (Sample.trace "t-2" (val "u-1") null))
     = "u-1".
Proof.
  split.
  - apply (proj1 (proj1 (convertToTableRow_name_userId
                           Sample.toLocaleString
                           (Sample.trace "t-1" null null)))).
    reflexivity.
  - apply (proj2 (proj2 (convertToTableRow_name_userId
                           Sample.toLocaleString
                           (Sample.trace "t-2" (val "u-1") null)))).
    reflexivity.
Defined.

(** Deselecting the page alone would keep the ids selected on other pages;
    the header handler drops them too. *)
Example select_header_uncheck_other_pages :
  React.flush (Sample.toggle_page ["a"] false) (Sample.selection ["a"; "b"])
  = Sample.selection ["b"]
  /\ React.flush
       (select_header_onCheckedChange (Sample.toggle_page ["a"]) (Checked false))
       (Sample.selection ["a"; "b"])
     = ∅.
Proof. split; vm_compute; reflexivity. Qed.

Example select_header_check_selects_page :
  React.flush
    (select_header_onCheckedChange (Sample.toggle_page ["a"]) Indeterminate)
    (Sample.selection ["b"])
  = Sample.selection ["a"; "b"].
Proof. vm_compute. reflexivity. Qed.

Lemma actionButtons_current_page_witness :
  actionButtons (Sample.selection ["a"; "b"])
    (defined (Sample.page ["b"; "c"] 2)) "project"
  = val (MultiSelectAction.mk ["b"] "project")
  /\ NoDup ["b"]
  /\ forall traceId : string,
       traceId ∈ ["b"]
       <-> is_Some (Sample.selection ["a"; "b"] !! traceId)
           /\ traceId ∈ map Trace.id
                (TracesAllOutput.traces (Sample.page ["b"; "c"] 2)).
Proof.
  split; [vm_compute; reflexivity|].
  apply (proj2 (actionButtons_current_page (Sample.selection ["a"; "b"])
                  (Sample.page ["b"; "c"] 2) "project")
           (MultiSelectAction.mk ["b"] "project")).
  vm_compute. reflexivity.
Defined.

Example actionButtons_other_page :
  actionButtons (Sample.selection ["a"])
    (defined (Sample.page ["b"; "c"] 2)) "project"
  = null.
Proof. vm_compute. reflexivity. Qed.

Lemma pageCount_is_ceiling_witness :
  pageCount (totalCount (defined (Sample.page [] 101)))
    (PaginationState.mk (Number 0) (Number 50))
  = Number 3
  /\ exists n : Z,
       pageCount (totalCount (defined (Sample.page [] 101)))
         (PaginationState.mk (Number 0) (Number 50))
       = Number n
       /\ forall m : Z,
            (n <= m)%Z
            <-> (TracesAllOutput.totalCount (Sample.page [] 101)
                 <= m * 50)%Z.
Proof.
  split.
  - apply (proj1 pageCount_is_ceiling (Sample.page [] 101)). reflexivity.
  - apply (proj2 pageCount_is_ceiling (Sample.page [] 101)
             (PaginationState.mk (Number 0) (Number 50)) 50%Z).
    + simpl. lia.
    + lia.
    + reflexivity.
Defined.

(** C6 (as stated) fails for a page size that is not an integer: with a
    total of 3 and a page size of 0.15 the page count is 20, although 20
    pages of that size hold less than 3 records; the ceiling of the
    quotient is 21. *)
Lemma pageCount_fractional_pageSize :
  pageCount (totalCount (defined (Sample.page [] 3)))
    (PaginationState.mk (Number 0) Sample2.fifteen_hundredths)
  = Number 20
  /\ exists size : Q,
       to_Q Sample2.fifteen_hundredths = Some size
       /\ (0 < size)%Q
       /\ (inject_Z 20 * size < inject_Z 3)%Q
       /\ (inject_Z 3 <= inject_Z 21 * size)%Q.
Proof.
  split; [vm_compute; reflexivity|].
  eexists. split; [reflexivity|].
  repeat split; vm_compute; congruence.
Qed.

(** The value written [0.15] is the quotient of 15 by 100. *)
Example fifteen_hundredths_literal :
  div (Number 15) (Number 100) = Sample2.fifteen_hundredths.
Proof. vm_compute. reflexivity. Qed.

Example pageCount_exact_multiple :
  pageCount 100 (PaginationState.mk (Number 0) (Number 50)) = Number 2.
Proof. vm_compute. reflexivity. Qed.

Example pageCount_not_loaded :
  pageCount (totalCount (Score := unit) undefined)
    (PaginationState.mk (Number 0) (Number 50))
  = Number 0.
Proof. vm_compute. reflexivity. Qed.

(** Above 2^53 the conversion of the total rounds: 2^53 + 1 records in
    pages of 1 give 2^53 pages. *)
Example pageCount_rounds_large_total :
  pageCount (2 ^ 53 + 1) (PaginationState.mk (Number 0) (Number 1))
  = Number (2 ^ 53).
Proof. vm_compute. reflexivity. Qed.

Lemma latency_cell_zero_is_formatted_witness :
  latency_cell Sample.formatIntervalSeconds
    (convertToTableRow Sample.toLocaleString
       (Sample.trace "t-1" null (val (Finite 0))))
  = defined "0.00s".
Proof.
  apply (proj2 (proj2 (latency_cell_zero_is_formatted Sample.toLocaleString
                         Sample.formatIntervalSeconds))
           (Sample.trace "t-1" null (val (Finite 0)))).
  reflexivity.
Defined.

Example latency_cell_null_is_empty :
  latency_cell Sample.formatIntervalSeconds
    (convertToTableRow Sample.toLocaleString (Sample.trace "t-1" null null))
  = undefined.
Proof. reflexivity. Qed.

Example transformFilterOptions_session_omitted :
  map ColumnDefinition.name
    (transformFilterOptions Sample.columns ["Session ID"] undefined)
  = ["Name"; "Tags"].
Proof. vm_compute. reflexivity. Qed.

(** ** Properties of the rest of the component *)

(** *** Helper facts *)

Lemma Array_find_spec {A : Type} (f : A -> bool) (l : list A) (x : A) :
  Array_find f l = defined x
  <-> exists pre post,
        l = (pre ++ x :: post)%list
        /\ Forall (fun y => f y = false) pre
        /\ f x = true.
Proof.
  induction l as [|y l IH]; simpl.
  - split; [discriminate|].
    intros (pre & post & E & _). by destruct pre.
  - destruct (f y) eqn:Hy.
    + split.
      * intros [= <-]. exists [], l. by repeat split.
      * intros (pre & post & E & Hpre & Hx).
        destruct pre as [|z pre]; simplify_eq/=; [done|].
        apply Forall_cons in Hpre as [Hz _]. congruence.
    + rewrite IH. split.
      * intros (pre & post & -> & Hpre & Hx).
        exists (y :: pre), post. repeat split; [|done]. by constructor.
      * intros (pre & post & E & Hpre & Hx).
        destruct pre as [|z pre]; simplify_eq/=; [congruence|].
        apply Forall_cons in Hpre as [_ Hpre]. by exists pre, post.
Qed.

Lemma Array_find_undefined {A : Type} (f : A -> bool) (l : list A) :
  Array_find f l = undefined <-> Forall (fun y => f y = false) l.
Proof.
  induction l as [|y l IH]; simpl.
  - split; [constructor | reflexivity].
  - destruct (f y) eqn:Hy.
    + split; [discriminate|]. intros [? _]%Forall_cons. congruence.
    + rewrite IH. split; [by constructor | by intros [_ ?]%Forall_cons].
Qed.

Lemma Array_find_app_undefined {A : Type} (f : A -> bool) (l1 l2 : list A) :
  Array_find f l2 = undefined -> Array_find f (l1 ++ l2) = Array_find f l1.
Proof.
  intros H. induction l1 as [|y l1 IH]; simpl; [exact H|].
  destruct (f y); [reflexivity | exact IH].
Qed.

Lemma userIdFilter_no_timestamp (userId : optional string) :
  Array_find (fun f => String.eqb (FilterCondition.column f) "Timestamp")
    (userIdFilter userId)
  = undefined.
Proof.
  unfold userIdFilter.
  destruct (truthy_string userId); [|reflexivity].
  destruct userId; reflexivity.
Qed.

Lemma enableColumnFilter_of_spec (omitted : list string) (columnId : string) :
  columnId <> EmptyString ->
  enableColumnFilter_of omitted columnId = true <-> columnId ∉ omitted.
Proof.
  intros Hne. unfold enableColumnFilter_of. rewrite negb_true_iff.
  destruct (Array_find _ omitted) as [|x] eqn:E; simpl.
  - split; [|reflexivity]. intros _ Hin.
    apply Array_find_undefined in E.
    rewrite Forall_forall in E. apply E in Hin.
    by rewrite String.eqb_refl in Hin.
  - apply Array_find_spec in E as (pre & post & -> & _ & Hx).
    apply String.eqb_eq in Hx as ->.
    split.
    + rewrite negb_false_iff. intros H%String.eqb_eq. done.
    + intros Hnot. exfalso. apply Hnot.
      apply elem_of_app. right. left.
Qed.

Lemma Object_keys_empty {V : Type} : Object_keys (∅ : gmap string V) = [].
Proof. unfold Object_keys. by rewrite map_to_list_empty. Qed.

Lemma actionButtons_empty_selection {Score : Type}
    (data : optional (TracesAllOutput.t Score)) (projectId : string) :
  actionButtons ∅ data projectId = null.
Proof. unfold actionButtons. by rewrite (Object_keys_empty (V := bool)). Qed.

Lemma convertToTableRow_ids {Score : Type} (toLocaleString : Z -> string)
    (ts : list (Trace.t Score)) :
  map TracesTableRow.id (map (convertToTableRow toLocaleString) ts)
  = map Trace.id ts.
Proof. rewrite map_map. reflexivity. Qed.


Section MoreProperties.

Context {Score TraceOptions : Type}.
Variable toLocaleString : Z -> string.
Variable tracesTableColsWithOptions :
  optional TraceOptions -> list ColumnDefinition.t.
Variable toggleAllPageRowsSelected :
  bool -> list (React.SetStateAction RowSelectionState).
Variable encodeURIComponent : string -> completion string.
Variable usdFormatter : number -> string.

Local Abbreviation row := (convertToTableRow (Score := Score) toLocaleString).

(** *** The filter-options query *)

Lemma timestampFilter_filterState
    (userFilterState : FilterState) (userId : optional string) :
  timestampFilter (filterState userFilterState userId)
  = timestampFilter userFilterState.
Proof.
  unfold timestampFilter, filterState.
  apply Array_find_app_undefined, userIdFilter_no_timestamp.
Qed.

Lemma timestampFilter_spec (l : FilterState) (f : FilterCondition.t) :
  timestampFilter l = defined f
  <-> exists pre post,
        l = (pre ++ f :: post)%list
        /\ Forall (fun g => FilterCondition.column g <> "Timestamp") pre
        /\ FilterCondition.column f = "Timestamp".
Proof.
  unfold timestampFilter. rewrite Array_find_spec.
  split; intros (pre & post & Hl & Hpre & Hf); exists pre, post;
    (split; [exact Hl|]); split.
  - eapply Forall_impl; [exact Hpre|]. intros x. apply String.eqb_neq.
  - by apply String.eqb_eq.
  - eapply Forall_impl; [exact Hpre|]. intros x. apply String.eqb_neq.
  - by apply String.eqb_eq.
Qed.

Lemma traceFilterOptions_input_timestampFilter
    (props : TracesTableProps.t) (h : Hooks.t Score TraceOptions) :
  FilterOptionsInput.timestampFilter (traceFilterOptions_input props h)
  = match timestampFilter (Hooks.userFilterState h) with
    | defined g =>
        if String.eqb (FilterCondition.type g) "datetime"
        then defined g else undefined
    | undefined => undefined
    end.
Proof.
  unfold traceFilterOptions_input.
  cbn [FilterOptionsInput.timestampFilter].
  rewrite timestampFilter_filterState.
  destruct (timestampFilter (Hooks.userFilterState h)); reflexivity.
Qed.

(** X1: the timestamp predicate looked up in the effective filter is the
    one looked up in the user-editable filter list: the appended user-id
    predicate is never taken for it. *)
Theorem timestampFilter_ignores_user_predicate
    (props : TracesTableProps.t) (h : Hooks.t Score TraceOptions) :
  timestampFilter (TracesAllInput.filter (tracesAllQueryFilter props h))
  = timestampFilter (Hooks.userFilterState h).
Proof. apply timestampFilter_filterState. Qed.

(** X2: the filter-options query is given a timestamp predicate [f]
    exactly when [f] is the first predicate on "Timestamp" of the
    user-editable filter list and its type is "datetime"; a first
    "Timestamp" predicate of another type hides the later ones. *)
Theorem traceFilterOptions_timestampFilter_first_datetime
    (props : TracesTableProps.t) (h : Hooks.t Score TraceOptions)
    (f : FilterCondition.t) :
  FilterOptionsInput.timestampFilter (traceFilterOptions_input props h)
  = defined f
  <-> exists pre post,
        Hooks.userFilterState h = (pre ++ f :: post)%list
        /\ Forall (fun g => FilterCondition.column g <> "Timestamp") pre
        /\ FilterCondition.column f = "Timestamp"
        /\ FilterCondition.type f = "datetime".
Proof.
  rewrite traceFilterOptions_input_timestampFilter.
  transitivity (timestampFilter (Hooks.userFilterState h) = defined f
                /\ FilterCondition.type f = "datetime").
  - destruct (timestampFilter (Hooks.userFilterState h)) as [|g].
    + split; [discriminate | by intros [? _]].
    + destruct (String.eqb (FilterCondition.type g) "datetime") eqn:Ht.
      * apply String.eqb_eq in Ht. split.
        -- by intros [= <-].
        -- by intros [[= <-] _].
      * apply String.eqb_neq in Ht. split; [discriminate|].
        intros [[= <-] ?]. done.
  - rewrite timestampFilter_spec. split.
    + intros [(pre & post & ? & ? & ?) ?]. by exists pre, post.
    + intros (pre & post & ? & ? & ? & ?). split; [|done].
      by exists pre, post.
Qed.

(** *** The page count at its edges *)

(** X3: with a page size of 0 or -0 and a total below 2^53 the page count
    is not a number of pages: it is NaN for a total of 0 and otherwise an
    infinity with the sign of the zero. *)
Theorem pageCount_zero_pageSize (total : Z) (pageIndex : double)
    (negative : bool) :
  (0 <= total < 2 ^ 53)%Z ->
  pageCount total
    (PaginationState.mk pageIndex (SpecFloat.S754_zero negative))
  = if (total =? 0)%Z then SpecFloat.S754_nan
    else SpecFloat.S754_infinity negative.
Proof.
  intros Ht. unfold pageCount; simpl.
  destruct total as [|p|p]; [reflexivity| |lia].
  destruct (Number_normal p) as (m & e & -> & _); [lia|].
  reflexivity.
Qed.

(** X4: for an integral total and an integral page size, both positive
    and below 2^53, the page count [n] is at least 1, [n] pages hold every
    record and [n - 1] pages do not: the last page is not empty. *)
Theorem pageCount_covers_total (total size : Z) (ps : PaginationState.t) :
  (0 < total < 2 ^ 53)%Z ->
  (0 < size < 2 ^ 53)%Z ->
  PaginationState.pageSize ps = Number size ->
  exists n : Z,
    pageCount total ps = Number n
    /\ (1 <= n)%Z
    /\ ((n - 1) * size < total)%Z
    /\ (total <= n * size)%Z.
Proof.
  intros Htotal Hsize Hps. destruct ps as [pageIndex pageSize].
  simpl in Hps. subst pageSize.
  exists (ceil_div total size).
  rewrite pageCount_integers by lia. split; [reflexivity|].
  pose proof (ceil_div_bounds total size ltac:(lia)) as Hb.
  pose proof (ceil_div_range total size (ceil_div total size)
                ltac:(lia) ltac:(lia) Hb).
  lia.
Qed.

(** X5: before any data has arrived the total falls back to 0, and the
    page count is a zero (-0 for a negative page size) for every page size
    other than 0, -0 and NaN, for which it is NaN. *)
Theorem pageCount_before_data (ps : PaginationState.t) :
  pageCount (totalCount (Score := Score) undefined) ps
  = match PaginationState.pageSize ps with
    | SpecFloat.S754_nan | SpecFloat.S754_zero _ => SpecFloat.S754_nan
    | SpecFloat.S754_infinity negative
    | SpecFloat.S754_finite negative _ _ => SpecFloat.S754_zero negative
    end.
Proof.
  unfold pageCount, totalCount; simpl.
  destruct (PaginationState.pageSize ps); reflexivity.
Qed.

(** *** Selection, bulk action and rendered rows *)

(** X6: while the listing has no data (first load, or a failed first
    load) the bulk-action control is not rendered, whatever is selected. *)
Theorem actionButtons_hidden_without_data (props : TracesTableProps.t)
    (selectedRows : RowSelectionState) (searchQuery : nullable string)
    (userFilterState : FilterState) (orderByState : nullable OrderByState.t)
    (paginationState : PaginationState.t) (options : optional TraceOptions) :
  let hooks s :=
    Hooks.mk (Score := Score) selectedRows searchQuery userFilterState
      orderByState paginationState (QueryResult.of_status s) options in
  Rendered.actionButtons
    (toolbar_props tracesTableColsWithOptions props
       (hooks QueryResult.Loading)) = null
  /\ forall e,
       Rendered.actionButtons
         (toolbar_props tracesTableColsWithOptions props
            (hooks (QueryResult.LoadingError e))) = null.
Proof. split; [|intros e]; apply actionButtons_not_loaded. Qed.

(** X7: after the header checkbox is unchecked, and after a successful
    bulk delete, the bulk-action control is not rendered, whatever was
    selected and whatever page is loaded. *)
Theorem actionButtons_hidden_after_clear (prior : RowSelectionState)
    (data : optional (TracesAllOutput.t Score)) (projectId : string) :
  actionButtons
    (React.flush
       (select_header_onCheckedChange toggleAllPageRowsSelected
          (Checked false))
       prior)
    data projectId = null
  /\ actionButtons (React.flush onDeleteSuccess prior) data projectId = null.
Proof.
  split.
  - unfold select_header_onCheckedChange; simpl. rewrite flush_app.
    apply actionButtons_empty_selection.
  - apply actionButtons_empty_selection.
Qed.

(** X8: when the listing succeeded, every id given to the bulk-action
    control is the id of a row handed to the table. *)
Theorem selectedTraceIds_are_rendered_rows (selectedRows : RowSelectionState)
    (d : TracesAllOutput.t Score) (projectId : string)
    (a : MultiSelectAction.t) :
  actionButtons selectedRows (defined d) projectId = val a ->
  exists rows,
    table_data toLocaleString (QueryResult.of_status (QueryResult.Success d))
    = Normal (AsyncTableData.loaded rows)
    /\ forall traceId,
         traceId ∈ MultiSelectAction.selectedTraceIds a ->
         traceId ∈ map TracesTableRow.id rows.
Proof.
  intros Ha. eexists. split; [reflexivity|].
  intros traceId Hin. rewrite convertToTableRow_ids.
  unfold actionButtons in Ha.
  destruct (0 <? _)%nat; [|discriminate].
  injection Ha as <-. simpl in Hin.
  by apply selected_on_page_spec in Hin as [_ ?].
Qed.

(** X9: the effect sets the detail-page list only when the listing
    succeeded, and then to the ids of the rows handed to the table, in
    their order; it does not throw on any shape of the fetch result. *)
Theorem detailPageList_matches_rows
    (s : QueryResult.status (TracesAllOutput.t Score)) :
  exists call,
    detailPageList_effect (QueryResult.of_status s) = Normal call
    /\ match s with
       | QueryResult.Success d =>
           exists rows,
             table_data toLocaleString (QueryResult.of_status s)
             = Normal (AsyncTableData.loaded rows)
             /\ call = defined ("traces", map TracesTableRow.id rows)
       | _ => call = undefined
       end.
Proof.
  destruct s as [|e|e d|d]; simpl; eexists; (split; [reflexivity|]);
    try reflexivity.
  eexists. split; [reflexivity|]. by rewrite convertToTableRow_ids.
Qed.


(** *** Cells *)

(** X11: a cost cell shows "-" for a record whose calculated cost is null
    and the formatted amount for every other cost, a cost of 0 included. *)
Theorem cost_cells_of_record (t : Trace.t Score) :
  ((Trace.calculatedInputCost t = null ->
    inputCost_cell usdFormatter (row t) = "-")
   /\ (forall c, Trace.calculatedInputCost t = val c ->
                 inputCost_cell usdFormatter (row t)
                 = usdFormatter (Finite c)))
  /\ ((Trace.calculatedOutputCost t = null ->
       outputCost_cell usdFormatter (row t) = "-")
      /\ (forall c, Trace.calculatedOutputCost t = val c ->
                    outputCost_cell usdFormatter (row t)
                    = usdFormatter (Finite c)))
  /\ ((Trace.calculatedTotalCost t = null ->
       totalCost_cell usdFormatter (row t) = "-")
      /\ (forall c, Trace.calculatedTotalCost t = val c ->
                    totalCost_cell usdFormatter (row t)
                    = usdFormatter (Finite c))).
Proof.
  unfold inputCost_cell, outputCost_cell, totalCost_cell, cost_cell,
    convertToTableRow; simpl.
  repeat split; intros; match goal with H : _ = _ |- _ => rewrite H end;
    reflexivity.
Qed.

(** X12: the user cell is empty exactly for a record whose userId is null
    or the empty string; for every other userId, when encodeURIComponent
    returns, it is a link to /project/<projectId>/users/<encoded userId>,
    labelled with the userId and truncated at 40, and when
    encodeURIComponent throws, the cell throws the same. *)
Theorem userId_cell_of_record (projectId : string) (t : Trace.t Score) :
  (userId_cell encodeURIComponent projectId (row t) = Normal undefined
   <-> Trace.userId t = null \/ Trace.userId t = val EmptyString)
  /\ (forall u,
        Trace.userId t = val u -> u <> EmptyString ->
        userId_cell encodeURIComponent projectId (row t)
        = match encodeURIComponent u with
          | Normal encoded =>
              Normal
                (defined
                   {| TableLink.path :=
                        String.append "/project/"
                          (String.append projectId
                             (String.append "/users/" encoded));
                      TableLink.value := u;
                      TableLink.truncateAt := defined 40%nat |})
          | Throw error => Throw error
          end).
Proof.
  unfold userId_cell, convertToTableRow; simpl.
  destruct (Trace.userId t) as [|u0]; simpl.
  - split; [tauto | discriminate].
  - destruct (String.eqb u0 EmptyString) eqn:E; simpl.
    + apply String.eqb_eq in E as ->. split; [tauto|].
      intros u [= <-] Hu. done.
    + apply String.eqb_neq in E. split.
      * split.
        -- destruct (encodeURIComponent u0); discriminate.
        -- intros [?|[= ?]]; done.
      * intros u [= <-] _. by destruct (encodeURIComponent u0).
Qed.

(** X13: the session cell is empty exactly for a record whose sessionId
    is null or the empty string; for every other sessionId, when
    encodeURIComponent returns, it is a link to
    /project/<projectId>/sessions/<encoded sessionId>, truncated at 40, and
    when encodeURIComponent throws, the cell throws the same. *)
Theorem sessionId_cell_of_record (projectId : string) (t : Trace.t Score) :
  (sessionId_cell encodeURIComponent projectId (row t) = Normal undefined
   <-> Trace.sessionId t = null \/ Trace.sessionId t = val EmptyString)
  /\ (forall v,
        Trace.sessionId t = val v -> v <> EmptyString ->
        sessionId_cell encodeURIComponent projectId (row t)
        = match encodeURIComponent v with
          | Normal encoded =>
              Normal
                (defined
                   {| TableLink.path :=
                        String.append "/project/"
                          (String.append projectId
                             (String.append "/sessions/" encoded));
                      TableLink.value := v;
                      TableLink.truncateAt := defined 40%nat |})
          | Throw error => Throw error
          end).
Proof.
  unfold sessionId_cell, convertToTableRow; simpl.
  destruct (Trace.sessionId t) as [|v0]; simpl.
  - split; [tauto | discriminate].
  - destruct (String.eqb v0 EmptyString) eqn:E; simpl.
    + apply String.eqb_eq in E as ->. split; [tauto|].
      intros v [= <-] Hv. done.
    + apply String.eqb_neq in E. split.
      * split.
        -- destruct (encodeURIComponent v0); discriminate.
        -- intros [?|[= ?]]; done.
      * intros v [= <-] _. by destruct (encodeURIComponent v0).
Qed.

(** X14: the id cell is empty exactly for an empty id; otherwise it is a
    link to /project/<projectId>/traces/<id>, with the id as it is (not
    encoded) and not truncated. *)
Theorem id_cell_of_record (projectId : string) (t : Trace.t Score) :
  (id_cell projectId (row t) = undefined <-> Trace.id t = EmptyString)
  /\ (Trace.id t <> EmptyString ->
      id_cell projectId (row t)
      = defined
          {| TableLink.path :=
               String.append "/project/"
                 (String.append projectId
                    (String.append "/traces/" (Trace.id t)));
             TableLink.value := Trace.id t;
             TableLink.truncateAt := undefined |}).
Proof using toLocaleString.
  unfold id_cell, convertToTableRow; simpl.
  destruct (String.eqb (Trace.id t) EmptyString) eqn:E; simpl.
  - apply String.eqb_eq in E. split.
    + split; intros _; [exact E | reflexivity].
    + intros Hne. exfalso. exact (Hne E).
  - apply String.eqb_neq in E. split.
    + split; [discriminate | intros Hid; exfalso; exact (E Hid)].
    + intros _. reflexivity.
Qed.

(** *** The column definitions *)

(** X15: for every omission list, the columns sessionId and scores are
    the only ones that set enableColumnFilter, and each sets it to false
    exactly when its own id is in the omission list. *)
Theorem columns_enableColumnFilter (omitted : list string) :
  Forall
    (fun c =>
       match LangfuseColumnDef.enableColumnFilter c with
       | defined b =>
           (LangfuseColumnDef.key c = "sessionId"
            \/ LangfuseColumnDef.key c = "scores")
           /\ (b = false <-> LangfuseColumnDef.key c ∈ omitted)
       | undefined =>
           LangfuseColumnDef.key c <> "sessionId"
           /\ LangfuseColumnDef.key c <> "scores"
       end)
    (columns omitted).
Proof.
  assert (forall k, k <> EmptyString ->
                    enableColumnFilter_of omitted k = false <-> k ∈ omitted)
    as Hspec.
  { intros k Hk. pose proof (enableColumnFilter_of_spec omitted k Hk) as H.
    destruct (enableColumnFilter_of omitted k).
    - split; [discriminate|]. intros Hin. by apply H in Hin.
    - split; [|done]. intros _.
      destruct (decide (k ∈ omitted)) as [|Hn]; [done|].
      apply H in Hn. discriminate. }
  unfold columns.
  repeat (apply Forall_cons; split;
          [cbn; first [ split; discriminate
                      | split; [auto | apply Hspec; discriminate] ] |]).
  apply Forall_nil. done.
Qed.

(** X16: for every omission list there are 25 columns, their keys (the
    id, or the accessor key of a column without id) are pairwise
    different, and every column hidden by default can be shown again:
    it has enableHiding set. *)
Theorem columns_registry (omitted : list string) :
  length (columns omitted) = 25%nat
  /\ NoDup (map LangfuseColumnDef.key (columns omitted))
  /\ Forall
       (fun c =>
          LangfuseColumnDef.defaultHidden c = undefined
          \/ LangfuseColumnDef.enableHiding c = defined true)
       (columns omitted).
Proof.
  split; [reflexivity|]. split.
  - cbn. apply (bool_decide_unpack _). vm_compute. reflexivity.
  - unfold columns.
    repeat (apply Forall_cons; split; [cbn; auto|]).
    apply Forall_nil. done.
Qed.

End MoreProperties.

(** ** The further properties on sample inputs *)

Example timestampFilter_default_user_scoped :
  FilterOptionsInput.timestampFilter
    (traceFilterOptions_input
       (TracesTableProps.mk "project" (defined "u-1") undefined)
       (Hooks.mk (Score := unit) (TraceOptions := unit) ∅ null
          (defaultFilterState 1700000000000) null
          (PaginationState.mk (Number 0) (Number 50))
          (QueryResult.of_status QueryResult.Loading) undefined))
  = defined (Sample2.since 1700000000000).
Proof. reflexivity. Qed.

(** A first "Timestamp" predicate that is not a date hides a later one
    that is. *)
Example timestampFilter_shadowed :
  FilterOptionsInput.timestampFilter
    (traceFilterOptions_input
       (TracesTableProps.mk "project" undefined undefined)
       (Hooks.mk (Score := unit) (TraceOptions := unit) ∅ null
          [ FilterCondition.mk "Timestamp" "string" "="
              (FilterCondition.StringValue "today");
            Sample2.since 0 ]
          null (PaginationState.mk (Number 0) (Number 50))
          (QueryResult.of_status QueryResult.Loading) undefined))
  = undefined.
Proof. reflexivity. Qed.

Lemma pageCount_zero_pageSize_witness :
  pageCount 5 (PaginationState.mk (Number 0) (SpecFloat.S754_zero true))
  = SpecFloat.S754_infinity true
  /\ pageCount 0 (PaginationState.mk (Number 0) (SpecFloat.S754_zero false))
     = SpecFloat.S754_nan.
Proof.
  split.
  - apply (pageCount_zero_pageSize 5 (Number 0) true). lia.
  - apply (pageCount_zero_pageSize 0 (Number 0) false). lia.
Defined.

Lemma pageCount_covers_total_witness :
  exists n : Z,
    pageCount 101 (PaginationState.mk (Number 0) (Number 50)) = Number n
    /\ (1 <= n)%Z
    /\ ((n - 1) * 50 < 101)%Z
    /\ (101 <= n * 50)%Z.
Proof.
  apply (pageCount_covers_total 101 50
           (PaginationState.mk (Number 0) (Number 50))).
  - lia.
  - lia.
  - reflexivity.
Defined.

(** A page size that is not a number ([?pageSize=abc]) gives a page count
    that is not a number, before and after the data has arrived. *)
Example pageCount_NaN_pageSize :
  pageCount (totalCount (Score := unit) undefined)
    (PaginationState.mk (Number 0) SpecFloat.S754_nan)
  = SpecFloat.S754_nan
  /\ pageCount 101 (PaginationState.mk (Number 0) SpecFloat.S754_nan)
     = SpecFloat.S754_nan.
Proof. split; reflexivity. Qed.

(** With an infinite page size every total below 2^53 fits no page at
    all: the page count is 0. *)
Example pageCount_infinite_pageSize :
  pageCount 101
    (PaginationState.mk (Number 0) (SpecFloat.S754_infinity false))
  = Number 0.
Proof. vm_compute. reflexivity. Qed.


Lemma selectedTraceIds_are_rendered_rows_witness :
  exists rows,
    table_data Sample.toLocaleString
      (QueryResult.of_status (QueryResult.Success (Sample.page ["b"; "c"] 2)))
    = Normal (AsyncTableData.loaded rows)
    /\ forall traceId,
         traceId ∈ ["b"] -> traceId ∈ map TracesTableRow.id rows.
Proof.
  apply (selectedTraceIds_are_rendered_rows Sample.toLocaleString
           (Sample.selection ["a"; "b"]) (Sample.page ["b"; "c"] 2) "project"
           (MultiSelectAction.mk ["b"] "project")).
  vm_compute. reflexivity.
Defined.

Lemma cost_cells_of_record_witness :
  inputCost_cell Sample2.usdFormatter
    (convertToTableRow Sample.toLocaleString (Sample2.priced null))
  = "-"
  /\ totalCost_cell Sample2.usdFormatter
       (convertToTableRow Sample.toLocaleString (Sample2.priced (val 0%Q)))
     = "$0.00".
Proof.
  split.
  - apply (proj1 (proj1 (cost_cells_of_record Sample.toLocaleString
                           Sample2.usdFormatter (Sample2.priced null)))).
    reflexivity.
  - apply (proj2 (proj2 (proj2 (cost_cells_of_record Sample.toLocaleString
                                  Sample2.usdFormatter
                                  (Sample2.priced (val 0%Q))))) 0%Q).
    reflexivity.
Defined.

Lemma userId_cell_of_record_witness :
  userId_cell Sample2.encodeURIComponent "p-1"
    (convertToTableRow Sample.toLocaleString (Sample2.priced null))
  = Normal
      (defined
         (TableLink.mk "/project/p-1/users/a%20b" "a b" (defined 40%nat))).
Proof.
  apply (proj2 (userId_cell_of_record Sample.toLocaleString
                  Sample2.encodeURIComponent "p-1" (Sample2.priced null))
           "a b").
  - reflexivity.
  - discriminate.
Defined.

Lemma sessionId_cell_of_record_witness :
  sessionId_cell Sample2.encodeURIComponent "p-1"
    (convertToTableRow Sample.toLocaleString (Sample2.priced null))
  = Normal
      (defined
         (TableLink.mk "/project/p-1/sessions/s-1" "s-1" (defined 40%nat))).
Proof.
  apply (proj2 (sessionId_cell_of_record Sample.toLocaleString
                  Sample2.encodeURIComponent "p-1" (Sample2.priced null))
           "s-1").
  - reflexivity.
  - discriminate.
Defined.

(** A userId with an unpaired surrogate makes the user cell throw. *)
Example userId_cell_unpaired_surrogate :
  userId_cell Sample2.encodeURIComponent "p-1"
    (convertToTableRow Sample.toLocaleString
       (Sample.trace "t-1" (val Sample2.lone_surrogate) null))
  = Throw Sample2.URIError.
Proof. reflexivity. Qed.

Lemma id_cell_of_record_witness :
  id_cell "p-1"
    (convertToTableRow Sample.toLocaleString (Sample2.priced null))
  = defined (TableLink.mk "/project/p-1/traces/t-1" "t-1" undefined).
Proof.
  apply (proj2 (id_cell_of_record Sample.toLocaleString "p-1"
                  (Sample2.priced null))).
  discriminate.
Defined.

Example userId_cell_null_user :
  userId_cell Sample2.encodeURIComponent "p-1"
    (convertToTableRow Sample.toLocaleString (Sample.trace "t-1" null null))
  = Normal undefined.
Proof. reflexivity. Qed.

Example columns_session_filter_by_id :
  map LangfuseColumnDef.enableColumnFilter
    (List.filter
       (fun c => String.eqb (LangfuseColumnDef.key c) "sessionId")
       (columns ["sessionId"]))
  = [defined false]
  /\ map LangfuseColumnDef.enableColumnFilter
       (List.filter
          (fun c => String.eqb (LangfuseColumnDef.key c) "sessionId")
          (columns ["Session ID"]))
     = [defined true].
Proof. split; reflexivity. Qed.
